(** * RideSurgeFHE: the surge-pricing contract and its request/callback protocol

    A shallow embedding of the Solidity contract [RideSurgeFHE] (pragma
    ^0.8.24, so every arithmetic operation is checked and reverts on
    overflow).  Unsigned integers are [N] with their bounds written out,
    storage mappings are [gmap N _] read with the zero default, a reverting
    call is an explicit [Revert] result and leaves storage as it was. *)

From Stdlib Require Import NArith List Lia.
From Stdlib Require Import Strings.Byte.
From stdpp Require Import base option list gmap.

Local Open Scope N_scope.

(** ** Machine integers *)

Definition max_uint256 : N := 2 ^ 256 - 1.
Definition max_uint32 : N := 2 ^ 32 - 1.

(** [bytes memory]: the raw payload of an oracle callback. *)
Abbreviation bytes := (list Byte.byte).

(** [euint32] is the library's handle type, a [bytes32] word; the zero word
    is the value of a storage slot that was never written. *)
Abbreviation euint32 := N.

(** ** Reverts *)

Inductive Error : Set :=
| InvalidIDs          (* require(..., "Invalid IDs") *)
| InvalidRequest      (* require(..., "Invalid request") *)
| ZoneMismatch        (* require(..., "Zone mismatch") *)
| InvalidPricingID    (* require(..., "Invalid pricing ID") *)
| NotVerified         (* require(..., "Not verified") *)
| InvalidSignatures   (* FHE.checkSignatures reverts *)
| RequestRefused      (* FHE.requestDecryption reverts *)
| DecodeFailure       (* abi.decode reverts on a malformed payload *)
| Panic (code : N).   (* 0x11 overflow, 0x12 division by zero, 0x32 index *)

Inductive Result (A : Type) : Type :=
| Ok (a : A)
| Revert (e : Error).
Arguments Ok {A} a.
Arguments Revert {A} e.

Definition bind {A B} (r : Result A) (k : A -> Result B) : Result B :=
  match r with
  | Ok a => k a
  | Revert e => Revert e
  end.

Notation "'let!' x ':=' r 'in' k" := (bind r (fun x => k))
  (at level 10, x name, r at level 100, k at level 200).
Notation "'check!' r 'in' k" := (bind r (fun _ => k))
  (at level 10, r at level 100, k at level 200).

Definition require (cond : bool) (e : Error) : Result unit :=
  if cond then Ok tt else Revert e.

(** [x++] on a [uint256]. *)
Definition incr256 (x : N) : Result N :=
  if x <? max_uint256 then Ok (x + 1) else Revert (Panic 17).

(** [a * b] on [uint32] operands. *)
Definition mul32 (a b : N) : Result N :=
  if a * b <=? max_uint32 then Ok (a * b) else Revert (Panic 17).

(** [a / b] on unsigned operands. *)
Definition div32 (a b : N) : Result N :=
  if b =? 0 then Revert (Panic 18) else Ok (a / b).

(** [data[i]] on a memory array. *)
Definition index (data : list N) (i : nat) : Result N :=
  match data !! i with
  | Some v => Ok v
  | None => Revert (Panic 50)
  end.

(** [uint32(x)]: an explicit narrowing conversion truncates. *)
Definition to_uint32 (x : N) : N := x mod 2 ^ 32.

(** ** Storage *)

Record RideDemand : Set := mkRideDemand {
  demand_encryptedZoneId : euint32;
  demand_encryptedRequestCount : euint32;
  demand_encryptedTimestamp : euint32
}.

Record DriverSupply : Set := mkDriverSupply {
  supply_encryptedZoneId : euint32;
  supply_encryptedAvailableDrivers : euint32;
  supply_encryptedTimestamp : euint32
}.

Record SurgePricing : Set := mkSurgePricing {
  encryptedZoneId : euint32;
  encryptedMultiplier : euint32;
  encryptedBasePrice : euint32;
  isVerified : bool
}.

Definition zeroDemand : RideDemand := mkRideDemand 0 0 0.
Definition zeroSupply : DriverSupply := mkDriverSupply 0 0 0.
Definition zeroPricing : SurgePricing := mkSurgePricing 0 0 0 false.

Record State : Type := mkState {
  demandCount : N;
  supplyCount : N;
  pricingCount : N;
  rideDemands : gmap N RideDemand;
  driverSupplies : gmap N DriverSupply;
  surgePricings : gmap N SurgePricing;
  requestToDemandId : gmap N N;
  requestToSupplyId : gmap N N;
  requestToPricingId : gmap N N
}.

(** The contract as deployed: every slot is zero. *)
Definition genesis : State := mkState 0 0 0 ∅ ∅ ∅ ∅ ∅ ∅.

(** Reading a mapping: an absent key reads as the zero value. *)
Definition demandAt (s : State) (id : N) : RideDemand :=
  default zeroDemand (rideDemands s !! id).
Definition supplyAt (s : State) (id : N) : DriverSupply :=
  default zeroSupply (driverSupplies s !! id).
Definition pricingAt (s : State) (id : N) : SurgePricing :=
  default zeroPricing (surgePricings s !! id).
Definition demandIdOf (s : State) (requestId : N) : N :=
  default 0 (requestToDemandId s !! requestId).
Definition supplyIdOf (s : State) (requestId : N) : N :=
  default 0 (requestToSupplyId s !! requestId).
Definition pricingIdOf (s : State) (requestId : N) : N :=
  default 0 (requestToPricingId s !! requestId).

(** ** Observable effects of a call: events and oracle requests

    [DecryptionFulfilled] is the event [FHE.checkSignatures] logs from the
    contract when the check passes; [DecryptionRequested] stands for the
    request [FHE.requestDecryption] places with the oracle. *)

Inductive Selector : Set :=
| sel_computePricing
| sel_validatePricing
| sel_decryptMultiplier.

Inductive Effect : Set :=
| DemandRecorded (demandId : N)
| SupplyRecorded (supplyId : N)
| PricingCalculated (pricingId : N)
| PricingVerified (pricingId : N)
| DecryptionFulfilled (requestId : N)
| DecryptionRequested (reqId : N) (ciphertexts : list N) (callback : Selector).

(** An external call into the contract, with what the environment supplies:
    [timestamp] is [block.timestamp], [reqId] the id that
    [FHE.requestDecryption] hands back. *)
Inductive Call : Type :=
| RecordDemand (zoneId requestCount : euint32) (timestamp : N)
| RecordSupply (zoneId availableDrivers : euint32) (timestamp : N)
| CalculateSurgePricing (demandId supplyId reqId : N)
| ComputePricing (requestId : N) (cleartexts proof : bytes)
| VerifyPricing (pricingId reqId : N)
| ValidatePricing (requestId : N) (cleartexts proof : bytes)
| RequestPricingProof (pricingId reqId : N)
| DecryptMultiplier (requestId : N) (cleartexts proof : bytes).

(** The surge buckets of [computePricing], lines 101-110 of the contract:
    [multiplier] starts at 100 and is overwritten by the first branch taken. *)
Definition surgeMultiplier (requestCount availableDrivers : N) : Result N :=
  if availableDrivers =? 0 then Ok 300
  else
    let! scaled := mul32 requestCount 100 in
    let! ratio := div32 scaled availableDrivers in
    Ok (if 200 <? ratio then 250
        else if 150 <? ratio then 200
        else if 100 <? ratio then 150
        else 100).

(** [isValid] of [validatePricing]. *)
Definition isValid (multiplier basePrice : N) : bool :=
  (100 <=? multiplier) && (multiplier <=? 300) && (0 <? basePrice).

(** The handles a request hands to the oracle. *)
Definition pairingCiphertexts (s : State) (demandId supplyId : N)
    : list euint32 :=
  [ demand_encryptedZoneId (demandAt s demandId);
    demand_encryptedRequestCount (demandAt s demandId);
    supply_encryptedZoneId (supplyAt s supplyId);
    supply_encryptedAvailableDrivers (supplyAt s supplyId) ].

Definition verificationCiphertexts (s : State) (pricingId : N)
    : list euint32 :=
  [ encryptedZoneId (pricingAt s pricingId);
    encryptedMultiplier (pricingAt s pricingId);
    encryptedBasePrice (pricingAt s pricingId) ].

Definition disclosureCiphertexts (s : State) (pricingId : N)
    : list euint32 :=
  [ encryptedMultiplier (pricingAt s pricingId) ].

(** The FHE library and the ABI decoder are collaborators of the contract:
    trivial encryption of a plaintext ([FHE.asEuint32]), the decryption
    request ([FHE.requestDecryption]: [true] when the call made with these
    handles and this callback returns the given request id, [false] when it
    reverts, as it does when the access-control list does not allow the
    contract on a handle or the id is in use), the signature check of a
    decryption result ([FHE.checkSignatures]: [true] when it passes, a
    revert otherwise) and the two decoders used on callback payloads
    ([abi.decode] at [uint32[]] and at [uint32], [None] when it reverts). *)
Class Environment : Type := {
  asEuint32 : N -> euint32;
  requestDecryption : list euint32 -> Selector -> N -> bool;
  checkSignatures : N -> bytes -> bytes -> bool;
  decode_uint32_array : bytes -> option (list N);
  decode_uint32 : bytes -> option N
}.

Section Contract.

Context {env : Environment}.

Definition abi_decode {A} (r : option A) : Result A :=
  match r with
  | Some a => Ok a
  | None => Revert DecodeFailure
  end.

(** [timestamp] is [block.timestamp]. *)
Definition recordDemand (zoneId requestCount : euint32) (timestamp : N)
    (s : State) : Result (State * list Effect) :=
  let! count := incr256 (demandCount s) in
  Ok (mkState count (supplyCount s) (pricingCount s)
        (<[count := mkRideDemand zoneId requestCount
                      (asEuint32 (to_uint32 timestamp))]> (rideDemands s))
        (driverSupplies s) (surgePricings s)
        (requestToDemandId s) (requestToSupplyId s) (requestToPricingId s),
      [DemandRecorded count]).

Definition recordSupply (zoneId availableDrivers : euint32) (timestamp : N)
    (s : State) : Result (State * list Effect) :=
  let! count := incr256 (supplyCount s) in
  Ok (mkState (demandCount s) count (pricingCount s)
        (rideDemands s)
        (<[count := mkDriverSupply zoneId availableDrivers
                      (asEuint32 (to_uint32 timestamp))]> (driverSupplies s))
        (surgePricings s)
        (requestToDemandId s) (requestToSupplyId s) (requestToPricingId s),
      [SupplyRecorded count]).

(** [reqId] is the request id handed back by [FHE.requestDecryption]; the
    call reverts when the library does. *)
Definition calculateSurgePricing (demandId supplyId : N) (reqId : N)
    (s : State) : Result (State * list Effect) :=
  check! require ((demandId <=? demandCount s) && (supplyId <=? supplyCount s))
           InvalidIDs in
  let ciphertexts := pairingCiphertexts s demandId supplyId in
  check! require (requestDecryption ciphertexts sel_computePricing reqId)
           RequestRefused in
  Ok (mkState (demandCount s) (supplyCount s) (pricingCount s)
        (rideDemands s) (driverSupplies s) (surgePricings s)
        (<[reqId := demandId]> (requestToDemandId s))
        (<[reqId := supplyId]> (requestToSupplyId s))
        (requestToPricingId s),
      [DecryptionRequested reqId ciphertexts sel_computePricing]).

Definition computePricing (requestId : N) (cleartexts proof : bytes)
    (s : State) : Result (State * list Effect) :=
  let demandId := demandIdOf s requestId in
  let supplyId := supplyIdOf s requestId in
  check! require (negb (demandId =? 0) && negb (supplyId =? 0))
           InvalidRequest in
  check! require (checkSignatures requestId cleartexts proof)
           InvalidSignatures in
  let! data := abi_decode (decode_uint32_array cleartexts) in
  let! demandZone := index data 0 in
  let! requestCount := index data 1 in
  let! supplyZone := index data 2 in
  let! availableDrivers := index data 3 in
  check! require (demandZone =? supplyZone) ZoneMismatch in
  let! multiplier := surgeMultiplier requestCount availableDrivers in
  let! count := incr256 (pricingCount s) in
  Ok (mkState (demandCount s) (supplyCount s) count
        (rideDemands s) (driverSupplies s)
        (<[count := mkSurgePricing (asEuint32 demandZone)
                      (asEuint32 multiplier) (asEuint32 1000) false]>
           (surgePricings s))
        (requestToDemandId s) (requestToSupplyId s) (requestToPricingId s),
      [DecryptionFulfilled requestId; PricingCalculated count]).

Definition verifyPricing (pricingId : N) (reqId : N)
    (s : State) : Result (State * list Effect) :=
  check! require (pricingId <=? pricingCount s) InvalidPricingID in
  let ciphertexts := verificationCiphertexts s pricingId in
  check! require (requestDecryption ciphertexts sel_validatePricing reqId)
           RequestRefused in
  Ok (mkState (demandCount s) (supplyCount s) (pricingCount s)
        (rideDemands s) (driverSupplies s) (surgePricings s)
        (requestToDemandId s) (requestToSupplyId s)
        (<[reqId := pricingId]> (requestToPricingId s)),
      [DecryptionRequested reqId ciphertexts sel_validatePricing]).

(** [surgePricings[pricingId].isVerified = true]: the other three fields
    of the slot keep what they hold. *)
Definition markVerified (p : SurgePricing) : SurgePricing :=
  mkSurgePricing (encryptedZoneId p) (encryptedMultiplier p)
    (encryptedBasePrice p) true.

Definition validatePricing (requestId : N) (cleartexts proof : bytes)
    (s : State) : Result (State * list Effect) :=
  let pricingId := pricingIdOf s requestId in
  check! require (negb (pricingId =? 0)) InvalidRequest in
  check! require (checkSignatures requestId cleartexts proof)
           InvalidSignatures in
  let! pricingData := abi_decode (decode_uint32_array cleartexts) in
  let! zoneId := index pricingData 0 in
  let! multiplier := index pricingData 1 in
  let! basePrice := index pricingData 2 in
  if isValid multiplier basePrice then
    Ok (mkState (demandCount s) (supplyCount s) (pricingCount s)
          (rideDemands s) (driverSupplies s)
          (<[pricingId := markVerified (pricingAt s pricingId)]>
             (surgePricings s))
          (requestToDemandId s) (requestToSupplyId s)
          (requestToPricingId s),
        [DecryptionFulfilled requestId; PricingVerified pricingId])
  else Ok (s, [DecryptionFulfilled requestId]).

Definition requestPricingProof (pricingId : N) (reqId : N)
    (s : State) : Result (State * list Effect) :=
  check! require (pricingId <=? pricingCount s) InvalidPricingID in
  check! require (isVerified (pricingAt s pricingId)) NotVerified in
  let ciphertexts := disclosureCiphertexts s pricingId in
  check! require (requestDecryption ciphertexts sel_decryptMultiplier reqId)
           RequestRefused in
  Ok (mkState (demandCount s) (supplyCount s) (pricingCount s)
        (rideDemands s) (driverSupplies s) (surgePricings s)
        (requestToDemandId s) (requestToSupplyId s)
        (<[reqId := pricingId]> (requestToPricingId s)),
      [DecryptionRequested reqId ciphertexts sel_decryptMultiplier]).

Definition decryptMultiplier (requestId : N) (cleartexts proof : bytes)
    (s : State) : Result (State * list Effect) :=
  let pricingId := pricingIdOf s requestId in
  check! require (negb (pricingId =? 0)) InvalidRequest in
  check! require (checkSignatures requestId cleartexts proof)
           InvalidSignatures in
  let! multiplier := abi_decode (decode_uint32 cleartexts) in
  Ok (s, [DecryptionFulfilled requestId]).

Definition getPricingStatus (s : State) (pricingId : N) : bool :=
  isVerified (pricingAt s pricingId).

Definition getDemandCount (s : State) : N := demandCount s.
Definition getSupplyCount (s : State) : N := supplyCount s.

(** *** Transactions *)

Definition call (c : Call) (s : State) : Result (State * list Effect) :=
  match c with
  | RecordDemand zoneId requestCount timestamp =>
      recordDemand zoneId requestCount timestamp s
  | RecordSupply zoneId availableDrivers timestamp =>
      recordSupply zoneId availableDrivers timestamp s
  | CalculateSurgePricing demandId supplyId reqId =>
      calculateSurgePricing demandId supplyId reqId s
  | ComputePricing requestId cleartexts proof =>
      computePricing requestId cleartexts proof s
  | VerifyPricing pricingId reqId => verifyPricing pricingId reqId s
  | ValidatePricing requestId cleartexts proof =>
      validatePricing requestId cleartexts proof s
  | RequestPricingProof pricingId reqId =>
      requestPricingProof pricingId reqId s
  | DecryptMultiplier requestId cleartexts proof =>
      decryptMultiplier requestId cleartexts proof s
  end.

(** A reverted transaction rolls storage back and emits nothing. *)
Definition transact (c : Call) (s : State) : State * list Effect :=
  match call c s with
  | Ok r => r
  | Revert _ => (s, [])
  end.

(** A history of transactions, with the log it accumulates. *)
Definition step (acc : State * list Effect) (c : Call)
    : State * list Effect :=
  (fst (transact c (fst acc)), snd acc ++ snd (transact c (fst acc))).

Definition exec (cs : list Call) (acc : State * list Effect)
    : State * list Effect :=
  fold_left step cs acc.

Definition run (cs : list Call) (s : State) : State :=
  fst (exec cs (s, [])).

Definition log (cs : list Call) (s : State) : list Effect :=
  snd (exec cs (s, [])).

(** What keeps a verified slot from being written again: verified slots
    and registered pricing ids all lie within the allocated range. *)
Definition allocated (s : State) : Prop :=
  (forall id, getPricingStatus s id = true -> id <= pricingCount s) /\
  (forall requestId, pricingIdOf s requestId <= pricingCount s).

(** The three correlation maps of [s'] are those of [s]. *)
Definition same_handles (s s' : State) : Prop :=
  requestToDemandId s' = requestToDemandId s /\
  requestToSupplyId s' = requestToSupplyId s /\
  requestToPricingId s' = requestToPricingId s.

(** *** Statements of the protocol document, as it words them *)

(** A resolved handle is spent: the same callback delivered again is
    turned away as an unknown handle. *)
Definition pairing_single_shot (s : State) (requestId : N)
    (cleartexts proof : bytes) : Prop :=
  forall s1 e1, computePricing requestId cleartexts proof s = Ok (s1, e1) ->
    computePricing requestId cleartexts proof s1 = Revert InvalidRequest.

(** A callback that fails the authenticity check still spends its handle. *)
Definition bad_proof_consumes (s : State) (requestId : N)
    (cleartexts proof : bytes) : Prop :=
  computePricing requestId cleartexts proof s = Revert InvalidSignatures ->
  demandIdOf (fst (transact (ComputePricing requestId cleartexts proof) s))
    requestId = 0.

(** Pairing on an id outside [1..count] fails with [InvalidIDs]. *)
Definition pairing_requires_existing (s : State)
    (demandId supplyId reqId : N) : Prop :=
  ~ (1 <= demandId <= demandCount s /\ 1 <= supplyId <= supplyCount s) ->
  calculateSurgePricing demandId supplyId reqId s = Revert InvalidIDs.

(** The pricing branch succeeds on every pair of [uint32] values. *)
Definition multiplier_total (requestCount availableDrivers : N) : Prop :=
  requestCount <= max_uint32 -> availableDrivers <= max_uint32 ->
  exists m, surgeMultiplier requestCount availableDrivers = Ok m /\
            In m [100; 150; 200; 250; 300].

End Contract.

(** The pricing calculator as the protocol document words it: 300 without
    drivers, else the bucket of [requestCount * 100 / availableDrivers]
    under truncating division, on unbounded integers. *)
Definition spec_multiplier (requestCount availableDrivers : N) : N :=
  if availableDrivers =? 0 then 300
  else
    let ratio := requestCount * 100 / availableDrivers in
    if 200 <? ratio then 250
    else if 150 <? ratio then 200
    else if 100 <? ratio then 150
    else 100.

(** ** Reading ids off the log *)

Definition demand_ids (t : list Effect) : list N :=
  omap (fun e => match e with DemandRecorded i => Some i | _ => None end) t.
Definition supply_ids (t : list Effect) : list N :=
  omap (fun e => match e with SupplyRecorded i => Some i | _ => None end) t.
Definition pricing_ids (t : list Effect) : list N :=
  omap (fun e => match e with PricingCalculated i => Some i | _ => None end) t.

(** [1; 2; ...; n] *)
Definition ids_upto (n : N) : list N := N.of_nat <$> seq 1 (N.to_nat n).

(** The ids logged so far are exactly those up to the counters. *)
Definition ids_dense (acc : State * list Effect) : Prop :=
  demand_ids (snd acc) = ids_upto (demandCount (fst acc)) /\
  supply_ids (snd acc) = ids_upto (supplyCount (fst acc)) /\
  pricing_ids (snd acc) = ids_upto (pricingCount (fst acc)).

Definition is_recordDemand (c : Call) : bool :=
  match c with RecordDemand _ _ _ => true | _ => false end.
Definition is_recordSupply (c : Call) : bool :=
  match c with RecordSupply _ _ _ => true | _ => false end.

Fixpoint count_calls (p : Call -> bool) (cs : list Call) : N :=
  match cs with
  | [] => 0
  | c :: rest => (if p c then 1 else 0) + count_calls p rest
  end.

(** ** A concrete environment for scenarios *)

Module Scenario.

(** Trivial encryption: some injective handle for a plaintext. *)
Definition trivialEncrypt (v : N) : euint32 := 2 ^ 64 + v.

(** An access-control list on which the contract has been allowed every
    handle but the zero word, which can be allowed to no one. *)
Definition decryptionAllowed (ciphertexts : list euint32)
    (callback : Selector) (reqId : N) : bool :=
  forallb (fun handle => negb (handle =? 0)) ciphertexts.

(** A signature check that accepts every non-empty proof. *)
Definition signaturesOk (requestId : N) (cleartexts proof : bytes) : bool :=
  match proof with
  | [] => false
  | _ => true
  end.

(** ABI words: 32 bytes, big endian. *)
Fixpoint be_value (bs : bytes) (acc : N) : N :=
  match bs with
  | [] => acc
  | b :: rest => be_value rest (acc * 256 + Byte.to_N b)
  end.

Fixpoint be_bytes (width : nat) (v : N) : bytes :=
  match width with
  | O => []
  | S w => be_bytes w (v / 256) ++ [default Byte.x00 (Byte.of_N (v mod 256))]
  end.

Definition word_at (b : bytes) (offset : N) : option N :=
  let w := take 32 (drop (N.to_nat offset) b) in
  if Nat.eqb (length w) 32 then Some (be_value w 0) else None.

Fixpoint uint32s_at (b : bytes) (offset : N) (n : nat) : option (list N) :=
  match n with
  | O => Some []
  | S n' =>
      match word_at b offset with
      | Some w =>
          if w <=? max_uint32
          then option_map (cons w) (uint32s_at b (offset + 32) n')
          else None
      | None => None
      end
  end.

(** [abi.decode(cleartexts, (uint32[]))]: head offset, length, elements. *)
Definition decode_array (b : bytes) : option (list N) :=
  match word_at b 0 with
  | Some offset =>
      match word_at b offset with
      | Some len => uint32s_at b (offset + 32) (N.to_nat len)
      | None => None
      end
  | None => None
  end.

(** [abi.decode(cleartexts, (uint32))] *)
Definition decode_word (b : bytes) : option N :=
  match word_at b 0 with
  | Some w => if w <=? max_uint32 then Some w else None
  | None => None
  end.

Definition encode_uint32_array (l : list N) : bytes :=
  be_bytes 32 32 ++ be_bytes 32 (N.of_nat (length l))
    ++ concat (map (be_bytes 32) l).

Definition validProof : bytes := [Byte.x01].
Definition forgedProof : bytes := [].

Definition env : Environment := {|
  asEuint32 := trivialEncrypt;
  requestDecryption := decryptionAllowed;
  checkSignatures := signaturesOk;
  decode_uint32_array := decode_array;
  decode_uint32 := decode_word
|}.

Definition call := @call env.
Definition transact := @transact env.
Definition run := @run env.
Definition log := @log env.

(** Demand 180 and supply 100 in zone 7, paired under request id 41. *)
Definition paired : State :=
  run [ RecordDemand 11 12 1700000000;
        RecordSupply 21 22 1700000001;
        CalculateSurgePricing 1 1 41 ] genesis.

Definition pairing_cleartexts : bytes := encode_uint32_array [7; 180; 7; 100].

(** [paired] after its pairing callback: pricing record 1, multiplier 200. *)
Definition priced : State :=
  fst (transact (ComputePricing 41 pairing_cleartexts validProof) paired).

(** The same pairing with the supply decrypted to another zone. *)
Definition mismatch_cleartexts : bytes :=
  encode_uint32_array [7; 180; 8; 100].

(** The same pairing with a request count whose hundredfold leaves
    [uint32]. *)
Definition overflow_cleartexts : bytes :=
  encode_uint32_array [7; 42949673; 7; 1].

(** The pricing record of [paired], computed and then verified under
    request id 42. *)
Definition verified_history : list Call :=
  [ RecordDemand 11 12 1700000000;
    RecordSupply 21 22 1700000001;
    CalculateSurgePricing 1 1 41;
    ComputePricing 41 pairing_cleartexts validProof;
    VerifyPricing 1 42;
    ValidatePricing 42 (encode_uint32_array [7; 200; 1000]) validProof ].

(** Calls that follow [verified_history]: the pairing callback delivered
    again, a verification of the second record that fails the range
    check, a verification callback for record 1 with a zero base price,
    and a disclosure request. *)
Definition later_calls : list Call :=
  [ ComputePricing 41 pairing_cleartexts validProof;
    VerifyPricing 2 43;
    ValidatePricing 43 (encode_uint32_array [7; 999; 1000]) validProof;
    ValidatePricing 42 (encode_uint32_array [7; 200; 0]) validProof;
    RequestPricingProof 1 44 ].

End Scenario.

(** ** Shape of the states a deployment can reach *)

(** The slots written in each record map are those of the ids allocated so
    far. *)
Definition records_allocated (s : State) : Prop :=
  (forall id, is_Some (rideDemands s !! id) <-> 1 <= id <= demandCount s) /\
  (forall id, is_Some (driverSupplies s !! id) <-> 1 <= id <= supplyCount s) /\
  (forall id, is_Some (surgePricings s !! id) <-> 1 <= id <= pricingCount s).

(** What a request id resolves to is zero or an allocated id. *)
Definition handles_allocated (s : State) : Prop :=
  forall requestId,
    demandIdOf s requestId <= demandCount s /\
    supplyIdOf s requestId <= supplyCount s /\
    pricingIdOf s requestId <= pricingCount s.

(** The three encrypted fields of a pricing slot. *)
Definition pricingFields (p : SurgePricing) : euint32 * euint32 * euint32 :=
  (encryptedZoneId p, encryptedMultiplier p, encryptedBasePrice p).

Section Shape.

Context {env : Environment}.

(** Every stored pricing record carries the encryption of a bucket value
    and of the base price 1000. *)
Definition pricing_wellformed (s : State) : Prop :=
  forall id rec, surgePricings s !! id = Some rec ->
    encryptedBasePrice rec = asEuint32 1000 /\
    exists m, In m [100; 150; 200; 250; 300] /\
              encryptedMultiplier rec = asEuint32 m.

End Shape.

Definition is_pairing_request (requestId : N) (c : Call) : bool :=
  match c with
  | CalculateSurgePricing _ _ reqId => reqId =? requestId
  | _ => false
  end.

Module Walkthrough.

(** Payloads of the verification callback: within the band, and with a
    multiplier above it. *)
Definition admissible_cleartexts : bytes :=
  Scenario.encode_uint32_array [7; 200; 1000].
Definition inadmissible_cleartexts : bytes :=
  Scenario.encode_uint32_array [7; 301; 1000].

(** A pairing payload that is one element short. *)
Definition short_cleartexts : bytes :=
  Scenario.encode_uint32_array [7; 180; 7].

(** [Scenario.priced] with record 1 under verification as request 42. *)
Definition verifying : State :=
  fst (Scenario.transact (VerifyPricing 1 42) Scenario.priced).

(** Record 1 verified. *)
Definition verified : State :=
  Scenario.run Scenario.verified_history genesis.

(** One demand and one supply submitted, nothing paired yet. *)
Definition submitted : State :=
  Scenario.run [ RecordDemand 11 12 1700000000;
                 RecordSupply 21 22 1700000001 ] genesis.

(** [verified] with the disclosure of record 1 requested as request 44. *)
Definition disclosing : State :=
  fst (Scenario.transact (RequestPricingProof 1 44) verified).

End Walkthrough.


(** * Properties *)

(** ** Inversion of the revert monad *)

Lemma bind_Ok {A B} (r : Result A) (k : A -> Result B) (b : B) :
  bind r k = Ok b -> exists a, r = Ok a /\ k a = Ok b.
Proof. destruct r as [a|e]; simpl; [eauto | discriminate]. Qed.

Lemma require_Ok (cond : bool) (e : Error) (u : unit) :
  require cond e = Ok u -> cond = true.
Proof. destruct cond; [reflexivity | discriminate]. Qed.

Lemma incr256_Ok (x y : N) :
  incr256 x = Ok y -> x < max_uint256 /\ y = x + 1.
Proof.
  unfold incr256. destruct (x <? max_uint256) eqn:E; [|discriminate].
  intros [= <-]. apply N.ltb_lt in E. auto.
Qed.

Lemma incr256_lt (x : N) : x < max_uint256 -> incr256 x = Ok (x + 1).
Proof. intros H. unfold incr256. apply N.ltb_lt in H. now rewrite H. Qed.

Lemma index_Ok (data : list N) (i : nat) (v : N) :
  index data i = Ok v -> data !! i = Some v.
Proof. unfold index. destruct (data !! i); [congruence | discriminate]. Qed.

Lemma index_Some (data : list N) (i : nat) (v : N) :
  data !! i = Some v -> index data i = Ok v.
Proof. unfold index. now intros ->. Qed.

Lemma abi_decode_Ok {A} (r : option A) (a : A) :
  abi_decode r = Ok a -> r = Some a.
Proof. destruct r; simpl; [congruence | discriminate]. Qed.

(** Peel one successful step off a hypothesis [bind _ _ = Ok _]. *)
Tactic Notation "peel" hyp(H) "as" ident(a) ident(Ha) :=
  apply bind_Ok in H; destruct H as (a & Ha & H).

(** ** The surge buckets *)

Lemma surgeMultiplier_spec (requestCount availableDrivers m : N) :
  surgeMultiplier requestCount availableDrivers = Ok m ->
  m = spec_multiplier requestCount availableDrivers.
Proof.
  unfold surgeMultiplier, spec_multiplier, mul32, div32.
  destruct (availableDrivers =? 0) eqn:Hd; [congruence|].
  destruct (requestCount * 100 <=? max_uint32); [|discriminate].
  cbn [bind]. congruence.
Qed.

Lemma surgeMultiplier_in_range (requestCount availableDrivers : N) :
  requestCount * 100 <= max_uint32 \/ availableDrivers = 0 ->
  surgeMultiplier requestCount availableDrivers
    = Ok (spec_multiplier requestCount availableDrivers).
Proof.
  unfold surgeMultiplier, spec_multiplier, mul32, div32.
  destruct (availableDrivers =? 0) eqn:Hd; [reflexivity|].
  intros [H | H]; [| apply N.eqb_neq in Hd; contradiction].
  apply N.leb_le in H. now rewrite H.
Qed.

Lemma spec_multiplier_bucket (requestCount availableDrivers : N) :
  In (spec_multiplier requestCount availableDrivers) [100; 150; 200; 250; 300].
Proof.
  unfold spec_multiplier.
  repeat match goal with |- context [if ?b then _ else _] => destruct b end;
    simpl; tauto.
Qed.

Section Properties.

Context {env : Environment}.

(** ** What a successful callback leaves in place *)

Lemma computePricing_handles s requestId cleartexts proof s' effects :
  computePricing requestId cleartexts proof s = Ok (s', effects) ->
  same_handles s s'.
Proof.
  unfold computePricing. intros H.
  peel H as u1 Hreq. peel H as u2 Hsig. peel H as data Hdata.
  peel H as dz Hdz. peel H as rc Hrc. peel H as sz Hsz. peel H as ad Had.
  peel H as u3 Hzone. peel H as m Hm. peel H as count Hcount.
  injection H as <- _. repeat split.
Qed.

Lemma computePricing_counters s requestId cleartexts proof s' effects :
  computePricing requestId cleartexts proof s = Ok (s', effects) ->
  demandCount s' = demandCount s /\ supplyCount s' = supplyCount s.
Proof.
  unfold computePricing. intros H.
  peel H as u1 Hreq. peel H as u2 Hsig. peel H as data Hdata.
  peel H as dz Hdz. peel H as rc Hrc. peel H as sz Hsz. peel H as ad Had.
  peel H as u3 Hzone. peel H as m Hm. peel H as count Hcount.
  injection H as <- _. split; reflexivity.
Qed.

Lemma validatePricing_handles s requestId cleartexts proof s' effects :
  validatePricing requestId cleartexts proof s = Ok (s', effects) ->
  same_handles s s'.
Proof.
  unfold validatePricing. intros H.
  peel H as u1 Hreq. peel H as u2 Hsig. peel H as data Hdata.
  peel H as z Hz. peel H as m Hm. peel H as b Hb.
  destruct (isValid m b); injection H as <- _; repeat split.
Qed.

Lemma decryptMultiplier_state s requestId cleartexts proof s' effects :
  decryptMultiplier requestId cleartexts proof s = Ok (s', effects) ->
  s' = s.
Proof.
  unfold decryptMultiplier. intros H.
  peel H as u1 Hreq. peel H as u2 Hsig. peel H as m Hm.
  now injection H as <- _.
Qed.

(** C2: the multiplier stored by a successful pairing callback is the
    encryption of the document's five-bucket function of the decrypted
    [requestCount] and [availableDrivers]; the five sample points of the
    document evaluate to 300, 250, 200, 150 and 100. *)
Theorem computePricing_multiplier :
  (forall s requestId cleartexts proof s' effects data
          requestCount availableDrivers,
      computePricing requestId cleartexts proof s = Ok (s', effects) ->
      decode_uint32_array cleartexts = Some data ->
      data !! 1%nat = Some requestCount ->
      data !! 3%nat = Some availableDrivers ->
      pricingCount s' = pricingCount s + 1 /\
      encryptedMultiplier (pricingAt s' (pricingCount s'))
        = asEuint32 (spec_multiplier requestCount availableDrivers)) /\
  (forall requestCount, surgeMultiplier requestCount 0 = Ok 300) /\
  surgeMultiplier 250 100 = Ok 250 /\
  surgeMultiplier 160 100 = Ok 200 /\
  surgeMultiplier 120 100 = Ok 150 /\
  surgeMultiplier 50 100 = Ok 100.
Proof.
  split; [| repeat split; reflexivity].
  intros s requestId cleartexts proof s' effects data rc ad H Hdec H1 H3.
  unfold computePricing in H.
  peel H as u1 Hreq. peel H as u2 Hsig. peel H as data' Hdata.
  apply abi_decode_Ok in Hdata. rewrite Hdec in Hdata.
  injection Hdata as <-.
  peel H as dz Hdz. peel H as rc' Hrc. peel H as sz Hsz. peel H as ad' Had.
  apply index_Ok in Hrc, Had. rewrite H1 in Hrc. rewrite H3 in Had.
  injection Hrc as <-. injection Had as <-.
  peel H as u3 Hzone. peel H as m Hm. peel H as count Hcount.
  apply surgeMultiplier_spec in Hm. apply incr256_Ok in Hcount.
  destruct Hcount as [_ ->]. injection H as <- _. simpl.
  split; [reflexivity|].
  unfold pricingAt. simpl. rewrite lookup_insert_eq. simpl. now subst.
Qed.

(** C10: a submission succeeds whenever its counter is below the [uint256]
    maximum, whatever the handles and the timestamp; it bumps its own
    counter by one, writes the record at the new id only, and leaves the
    other counters, the other maps and the correlation maps as they
    were.  The contract reads no caller. *)
Theorem record_frame :
  (forall s zoneId requestCount timestamp,
      demandCount s < max_uint256 ->
      recordDemand zoneId requestCount timestamp s
        = Ok (mkState (demandCount s + 1) (supplyCount s) (pricingCount s)
                (<[demandCount s + 1 :=
                     mkRideDemand zoneId requestCount
                       (asEuint32 (to_uint32 timestamp))]> (rideDemands s))
                (driverSupplies s) (surgePricings s)
                (requestToDemandId s) (requestToSupplyId s)
                (requestToPricingId s),
              [DemandRecorded (demandCount s + 1)]) /\
      forall s' effects id,
        recordDemand zoneId requestCount timestamp s = Ok (s', effects) ->
        id <> demandCount s + 1 ->
        rideDemands s' !! id = rideDemands s !! id) /\
  (forall s zoneId availableDrivers timestamp,
      supplyCount s < max_uint256 ->
      recordSupply zoneId availableDrivers timestamp s
        = Ok (mkState (demandCount s) (supplyCount s + 1) (pricingCount s)
                (rideDemands s)
                (<[supplyCount s + 1 :=
                     mkDriverSupply zoneId availableDrivers
                       (asEuint32 (to_uint32 timestamp))]>
                   (driverSupplies s))
                (surgePricings s)
                (requestToDemandId s) (requestToSupplyId s)
                (requestToPricingId s),
              [SupplyRecorded (supplyCount s + 1)]) /\
      forall s' effects id,
        recordSupply zoneId availableDrivers timestamp s = Ok (s', effects) ->
        id <> supplyCount s + 1 ->
        driverSupplies s' !! id = driverSupplies s !! id).
Proof.
  split.
  - intros s z c t Hlt. unfold recordDemand.
    rewrite (incr256_lt _ Hlt). simpl. split; [reflexivity|].
    intros s' effects id [= <- _] Hne. simpl.
    now rewrite lookup_insert_ne.
  - intros s z c t Hlt. unfold recordSupply.
    rewrite (incr256_lt _ Hlt). simpl. split; [reflexivity|].
    intros s' effects id [= <- _] Hne. simpl.
    now rewrite lookup_insert_ne.
Qed.

(** C3: on a pricing id whose slot is not verified, [requestPricingProof]
    reverts, with [NotVerified] when the id is within the allocated range,
    and the transaction leaves storage untouched and issues no decryption
    request; conversely a decryption request for the multiplier is only
    issued on a verified record. *)
Theorem requestPricingProof_gate :
  (forall s pricingId reqId,
      getPricingStatus s pricingId = false ->
      (exists e, requestPricingProof pricingId reqId s = Revert e /\
                 (pricingId <= pricingCount s -> e = NotVerified)) /\
      transact (RequestPricingProof pricingId reqId) s = (s, [])) /\
  (forall s pricingId reqId s' effects,
      requestPricingProof pricingId reqId s = Ok (s', effects) ->
      getPricingStatus s pricingId = true).
Proof.
  split.
  - intros s pricingId reqId Hv. unfold getPricingStatus in Hv.
    unfold transact, call, requestPricingProof. rewrite Hv.
    destruct (pricingId <=? pricingCount s) eqn:E; simpl.
    + split; [|reflexivity]. exists NotVerified. auto.
    + split; [|reflexivity]. exists InvalidPricingID. split; [reflexivity|].
      intros Hle. apply N.leb_le in Hle. congruence.
  - intros s pricingId reqId s' effects H. unfold requestPricingProof in H.
    peel H as u1 Hrange. peel H as u2 Hver.
    now apply require_Ok in Hver.
Qed.

(** C5: a pairing callback whose decrypted demand zone differs from its
    supply zone reverts, whatever the request count and the available
    drivers; with a registered handle and a valid proof the revert is
    [ZoneMismatch]; the transaction creates no pricing record and leaves
    [pricingCount] and the rest of storage as they were. *)
Theorem zone_gate :
  forall s requestId cleartexts proof data
         demandZone requestCount supplyZone availableDrivers,
    decode_uint32_array cleartexts = Some data ->
    data !! 0%nat = Some demandZone ->
    data !! 1%nat = Some requestCount ->
    data !! 2%nat = Some supplyZone ->
    data !! 3%nat = Some availableDrivers ->
    demandZone <> supplyZone ->
    (exists e, computePricing requestId cleartexts proof s = Revert e /\
               (demandIdOf s requestId <> 0 ->
                supplyIdOf s requestId <> 0 ->
                checkSignatures requestId cleartexts proof = true ->
                e = ZoneMismatch)) /\
    transact (ComputePricing requestId cleartexts proof) s = (s, []).
Proof.
  intros s requestId cleartexts proof data dz rc sz ad Hdec H0 H1 H2 H3 Hne.
  assert (Hrev : exists e,
             computePricing requestId cleartexts proof s = Revert e /\
             (demandIdOf s requestId <> 0 ->
              supplyIdOf s requestId <> 0 ->
              checkSignatures requestId cleartexts proof = true ->
              e = ZoneMismatch)).
  { unfold computePricing.
    destruct (demandIdOf s requestId =? 0) eqn:Ed.
    { exists InvalidRequest. split; [reflexivity|].
      apply N.eqb_eq in Ed. intros Hd. contradiction. }
    destruct (supplyIdOf s requestId =? 0) eqn:Es.
    { exists InvalidRequest. split; [reflexivity|].
      apply N.eqb_eq in Es. intros _ Hs. contradiction. }
    destruct (checkSignatures requestId cleartexts proof) eqn:Ec.
    2:{ exists InvalidSignatures. split; [reflexivity|]. discriminate. }
    exists ZoneMismatch. split; [|reflexivity].
    cbn [negb andb require bind]. rewrite Hdec. cbn [abi_decode bind].
    rewrite (index_Some _ _ _ H0), (index_Some _ _ _ H1),
      (index_Some _ _ _ H2), (index_Some _ _ _ H3).
    cbn [bind]. apply N.eqb_neq in Hne. now rewrite Hne. }
  split; [exact Hrev|].
  destruct Hrev as (e & He & _). unfold transact, call. now rewrite He.
Qed.

(** C1 (as the contract has it): a callback on a handle without a
    correlation entry reverts with [InvalidRequest]; a successful callback
    leaves the three correlation maps as they were, so the handle stays
    resolvable: the same pairing callback delivered again is accepted
    again and creates a further pricing record, while [pricingCount] is
    below the [uint256] maximum, and the same verification callback
    delivered again is accepted again and leaves storage as the first
    delivery left it. *)
Theorem callbacks_keep_handles :
  (forall s requestId cleartexts proof,
      (demandIdOf s requestId = 0 \/ supplyIdOf s requestId = 0 ->
       computePricing requestId cleartexts proof s = Revert InvalidRequest) /\
      (pricingIdOf s requestId = 0 ->
       validatePricing requestId cleartexts proof s = Revert InvalidRequest /\
       decryptMultiplier requestId cleartexts proof s
         = Revert InvalidRequest)) /\
  (forall s requestId cleartexts proof s1 e1,
      computePricing requestId cleartexts proof s = Ok (s1, e1) \/
      validatePricing requestId cleartexts proof s = Ok (s1, e1) \/
      decryptMultiplier requestId cleartexts proof s = Ok (s1, e1) ->
      same_handles s s1) /\
  (forall s requestId cleartexts proof s1 e1,
      computePricing requestId cleartexts proof s = Ok (s1, e1) ->
      pricingCount s1 < max_uint256 ->
      exists s2,
        computePricing requestId cleartexts proof s1
          = Ok (s2, [DecryptionFulfilled requestId;
                     PricingCalculated (pricingCount s1 + 1)]) /\
        pricingCount s2 = pricingCount s1 + 1) /\
  (forall s requestId cleartexts proof s1 e1,
      validatePricing requestId cleartexts proof s = Ok (s1, e1) ->
      validatePricing requestId cleartexts proof s1 = Ok (s1, e1)).
Proof.
  split; [|split; [|split]].
  - intros s requestId cleartexts proof. split.
    + intros H. unfold computePricing.
      destruct H as [-> | ->]; [reflexivity|].
      now destruct (demandIdOf s requestId =? 0).
    + intros H. unfold validatePricing, decryptMultiplier. now rewrite H.
  - intros s requestId cleartexts proof s1 e1 [H | [H | H]].
    + apply computePricing_handles in H. exact H.
    + apply validatePricing_handles in H. exact H.
    + apply decryptMultiplier_state in H. subst s1.
      repeat split.
  - intros s requestId cleartexts proof s1 e1 H Hlt.
    pose proof (computePricing_handles _ _ _ _ _ _ H) as (Hd & Hs & _).
    unfold computePricing in H.
    peel H as u1 Hreq. peel H as u2 Hsig. peel H as data Hdata.
    peel H as dz Hdz. peel H as rc Hrc. peel H as sz Hsz. peel H as ad Had.
    peel H as u3 Hzone. peel H as m Hm. peel H as count Hcount.
    clear H. unfold computePricing, demandIdOf, supplyIdOf.
    rewrite Hd, Hs. fold (demandIdOf s requestId) (supplyIdOf s requestId).
    destruct u1, u2, u3.
    rewrite Hreq. cbn [bind]. rewrite Hsig. cbn [bind].
    rewrite Hdata. cbn [bind]. rewrite Hdz. cbn [bind].
    rewrite Hrc. cbn [bind]. rewrite Hsz. cbn [bind].
    rewrite Had. cbn [bind]. rewrite Hzone. cbn [bind].
    rewrite Hm. cbn [bind]. rewrite (incr256_lt _ Hlt). cbn [bind].
    eexists. split; reflexivity.
  - intros s requestId cleartexts proof s1 e1 H.
    pose proof (validatePricing_handles _ _ _ _ _ _ H) as (_ & _ & Hp).
    pose proof H as H'. unfold validatePricing in H.
    peel H as u1 Hreq. peel H as u2 Hsig. peel H as data Hdata.
    peel H as z Hz. peel H as m Hm. peel H as b Hb.
    unfold validatePricing, pricingIdOf. rewrite Hp.
    fold (pricingIdOf s requestId). destruct u1, u2.
    rewrite Hreq. cbn [bind]. rewrite Hsig. cbn [bind].
    rewrite Hdata. cbn [bind]. rewrite Hz. cbn [bind].
    rewrite Hm. cbn [bind]. rewrite Hb. cbn [bind].
    destruct (isValid m b); injection H as <- <-; [|reflexivity].
    unfold pricingAt. cbn [surgePricings demandCount supplyCount
      pricingCount rideDemands driverSupplies requestToDemandId
      requestToSupplyId requestToPricingId].
    rewrite lookup_insert_eq. cbn [default].
    rewrite insert_insert_eq. reflexivity.
Qed.

(** C6 (as the contract has it): a callback whose proof fails the
    signature check reverts, with [InvalidSignatures] when its handle is
    registered, and the reverted transaction changes nothing: the
    correlation entry is still there, and the handle can be delivered
    again. *)
Theorem bad_proof_keeps_handle :
  forall s requestId cleartexts proof,
    checkSignatures requestId cleartexts proof = false ->
    (demandIdOf s requestId <> 0 -> supplyIdOf s requestId <> 0 ->
     computePricing requestId cleartexts proof s
       = Revert InvalidSignatures) /\
    (pricingIdOf s requestId <> 0 ->
     validatePricing requestId cleartexts proof s
       = Revert InvalidSignatures /\
     decryptMultiplier requestId cleartexts proof s
       = Revert InvalidSignatures) /\
    transact (ComputePricing requestId cleartexts proof) s = (s, []) /\
    transact (ValidatePricing requestId cleartexts proof) s = (s, []) /\
    transact (DecryptMultiplier requestId cleartexts proof) s = (s, []).
Proof.
  intros s requestId cleartexts proof Hsig.
  unfold transact, call, computePricing, validatePricing, decryptMultiplier.
  rewrite Hsig.
  repeat split.
  - intros Hd Hs. apply N.eqb_neq in Hd, Hs. now rewrite Hd, Hs.
  - apply N.eqb_neq in H. now rewrite H.
  - apply N.eqb_neq in H. now rewrite H.
  - now destruct (demandIdOf s requestId =? 0),
      (supplyIdOf s requestId =? 0).
  - now destruct (pricingIdOf s requestId =? 0).
  - now destruct (pricingIdOf s requestId =? 0).
Qed.

(** ** Histories *)

Lemma exec_invariant (P : State * list Effect -> Prop) :
  (forall acc c, P acc -> P (step acc c)) ->
  forall cs acc, P acc -> P (exec cs acc).
Proof.
  intros Hstep cs. unfold exec.
  induction cs as [|c cs IH]; intros acc Hacc; simpl; [exact Hacc|].
  apply IH, Hstep, Hacc.
Qed.

Lemma transact_cases c s :
  (exists s' e, call c s = Ok (s', e) /\ transact c s = (s', e)) \/
  (exists err, call c s = Revert err /\ transact c s = (s, [])).
Proof.
  unfold transact. destruct (call c s) as [[s' e]|err]; eauto.
Qed.

(** ** The verified flag *)

Lemma allocated_genesis : allocated genesis.
Proof.
  split; intros x; unfold getPricingStatus, pricingAt, pricingIdOf;
    simpl; rewrite lookup_empty; simpl; [discriminate | lia].
Qed.

Lemma call_allocated c s s' e :
  call c s = Ok (s', e) -> allocated s -> allocated s'.
Proof.
  intros H [Hver Hreq].
  unfold allocated, getPricingStatus, pricingAt, pricingIdOf in *.
  destruct c; simpl in H.
  - unfold recordDemand in H. peel H as n Hn. injection H as <- _.
    simpl. auto.
  - unfold recordSupply in H. peel H as n Hn. injection H as <- _.
    simpl. auto.
  - unfold calculateSurgePricing in H. peel H as u Hu. peel H as ul Hlib.
    injection H as <- _. simpl. auto.
  - unfold computePricing in H.
    peel H as u1 Hreq1. peel H as u2 Hsig. peel H as data Hdata.
    peel H as dz Hdz. peel H as rc Hrc. peel H as sz Hsz. peel H as ad Had.
    peel H as u3 Hzone. peel H as m Hm. peel H as count Hcount.
    apply incr256_Ok in Hcount. destruct Hcount as [_ ->].
    injection H as <- _. simpl. split.
    + intros id. destruct (decide (pricingCount s + 1 = id)) as [<-|Hne].
      * rewrite lookup_insert_eq. simpl. discriminate.
      * rewrite lookup_insert_ne by exact Hne.
        intros Hid. specialize (Hver id Hid). lia.
    + intros r. specialize (Hreq r). lia.
  - unfold verifyPricing in H. peel H as u Hu. peel H as ul Hlib.
    apply require_Ok in Hu.
    apply N.leb_le in Hu. injection H as <- _. simpl. split; [exact Hver|].
    intros r. destruct (decide (reqId = r)) as [<-|Hne].
    + rewrite lookup_insert_eq. exact Hu.
    + rewrite lookup_insert_ne by exact Hne. apply Hreq.
  - unfold validatePricing in H.
    peel H as u1 Hreq1. peel H as u2 Hsig. peel H as data Hdata.
    peel H as z Hz. peel H as m Hm. peel H as b Hb.
    destruct (isValid m b); injection H as <- _; [|auto].
    simpl. split; [|exact Hreq].
    intros id.
    destruct (decide (pricingIdOf s requestId = id)) as [<-|Hne].
    + intros _. apply Hreq.
    + unfold pricingIdOf in Hne. rewrite lookup_insert_ne by exact Hne.
      apply Hver.
  - unfold requestPricingProof in H. peel H as u1 Hu. peel H as u2 Hv.
    peel H as ul Hlib.
    apply require_Ok in Hu. apply N.leb_le in Hu.
    injection H as <- _. simpl. split; [exact Hver|].
    intros r. destruct (decide (reqId = r)) as [<-|Hne].
    + rewrite lookup_insert_eq. exact Hu.
    + rewrite lookup_insert_ne by exact Hne. apply Hreq.
  - apply decryptMultiplier_state in H. subst s'. auto.
Qed.

Lemma call_keeps_verified c s s' e id :
  call c s = Ok (s', e) -> allocated s ->
  getPricingStatus s id = true -> getPricingStatus s' id = true.
Proof.
  intros H [Hver Hreq] Hid. pose proof (Hver id Hid) as Hle.
  unfold getPricingStatus, pricingAt in *.
  destruct c; simpl in H.
  - unfold recordDemand in H. peel H as n Hn. now injection H as <- _.
  - unfold recordSupply in H. peel H as n Hn. now injection H as <- _.
  - unfold calculateSurgePricing in H. peel H as u Hu. peel H as ul Hlib.
    now injection H as <- _.
  - unfold computePricing in H.
    peel H as u1 Hreq1. peel H as u2 Hsig. peel H as data Hdata.
    peel H as dz Hdz. peel H as rc Hrc. peel H as sz Hsz. peel H as ad Had.
    peel H as u3 Hzone. peel H as m Hm. peel H as count Hcount.
    apply incr256_Ok in Hcount. destruct Hcount as [_ ->].
    injection H as <- _. simpl.
    rewrite lookup_insert_ne by lia. exact Hid.
  - unfold verifyPricing in H. peel H as u Hu. peel H as ul Hlib.
    now injection H as <- _.
  - unfold validatePricing in H.
    peel H as u1 Hreq1. peel H as u2 Hsig. peel H as data Hdata.
    peel H as z Hz. peel H as m Hm. peel H as b Hb.
    destruct (isValid m b); injection H as <- _; [|exact Hid].
    simpl. destruct (decide (pricingIdOf s requestId = id)) as [<-|Hne].
    + now rewrite lookup_insert_eq.
    + rewrite lookup_insert_ne by exact Hne. exact Hid.
  - unfold requestPricingProof in H. peel H as u1 Hu. peel H as u2 Hv.
    peel H as ul Hlib.
    now injection H as <- _.
  - apply decryptMultiplier_state in H. now subst s'.
Qed.

Lemma run_allocated cs s : allocated s -> allocated (run cs s).
Proof.
  intros Hs. unfold run.
  apply (exec_invariant (fun acc => allocated (fst acc))); [|exact Hs].
  intros [s0 t0] c H0. simpl in *.
  destruct (transact_cases c s0) as [(s' & e & Hc & ->)|(err & _ & ->)];
    simpl; [|exact H0].
  eapply call_allocated; eassumption.
Qed.

Lemma run_keeps_verified cs s id :
  allocated s -> getPricingStatus s id = true ->
  getPricingStatus (run cs s) id = true.
Proof.
  intros Hs Hid. unfold run.
  apply (exec_invariant
           (fun acc => allocated (fst acc) /\
                       getPricingStatus (fst acc) id = true));
    [|split; assumption].
  intros [s0 t0] c [Ha Hv]. simpl in *.
  destruct (transact_cases c s0) as [(s' & e & Hc & ->)|(err & _ & ->)];
    simpl; [|split; assumption].
  split; [eapply call_allocated | eapply call_keeps_verified]; eassumption.
Qed.

(** C4: a pricing record is created with [isVerified] false, and once
    [getPricingStatus] is true for an id in a state reached from
    deployment, it is true after every further sequence of calls,
    successful or reverted, with any arguments. *)
Theorem verified_monotone :
  (forall s requestId cleartexts proof s' effects,
      computePricing requestId cleartexts proof s = Ok (s', effects) ->
      pricingCount s' = pricingCount s + 1 /\
      getPricingStatus s' (pricingCount s') = false) /\
  (forall history later id,
      getPricingStatus (run history genesis) id = true ->
      getPricingStatus (run later (run history genesis)) id = true).
Proof.
  split.
  - intros s requestId cleartexts proof s' effects H.
    unfold computePricing in H.
    peel H as u1 Hreq1. peel H as u2 Hsig. peel H as data Hdata.
    peel H as dz Hdz. peel H as rc Hrc. peel H as sz Hsz. peel H as ad Had.
    peel H as u3 Hzone. peel H as m Hm. peel H as count Hcount.
    apply incr256_Ok in Hcount. destruct Hcount as [_ ->].
    injection H as <- _. unfold getPricingStatus, pricingAt. simpl.
    now rewrite lookup_insert_eq.
  - intros history later id Hid.
    apply run_keeps_verified; [|exact Hid].
    apply run_allocated, allocated_genesis.
Qed.

(** ** Id allocation *)

Lemma ids_upto_succ (n : N) : ids_upto (n + 1) = ids_upto n ++ [n + 1].
Proof.
  unfold ids_upto.
  replace (N.to_nat (n + 1)) with (S (N.to_nat n)) by lia.
  rewrite seq_S, fmap_app. simpl. f_equal. f_equal. lia.
Qed.

Lemma ids_upto_NoDup (n : N) : NoDup (ids_upto n).
Proof.
  unfold ids_upto. apply NoDup_fmap_2; [|apply NoDup_seq].
  intros a b Hab. lia.
Qed.

Lemma call_ids_dense c s t s' e :
  call c s = Ok (s', e) -> ids_dense (s, t) -> ids_dense (s', t ++ e).
Proof.
  intros H (Hd & Hs & Hp). unfold ids_dense in *. simpl in *.
  unfold demand_ids, supply_ids, pricing_ids in *.
  rewrite !omap_app.
  destruct c; simpl in H.
  - unfold recordDemand in H. peel H as n Hn. apply incr256_Ok in Hn.
    destruct Hn as [_ ->]. injection H as <- <-. simpl.
    rewrite ids_upto_succ, Hd, Hs, Hp, !app_nil_r. auto.
  - unfold recordSupply in H. peel H as n Hn. apply incr256_Ok in Hn.
    destruct Hn as [_ ->]. injection H as <- <-. simpl.
    rewrite ids_upto_succ, Hd, Hs, Hp, !app_nil_r. auto.
  - unfold calculateSurgePricing in H. peel H as u Hu. peel H as ul Hlib.
    injection H as <- <-. simpl. rewrite !app_nil_r. auto.
  - unfold computePricing in H.
    peel H as u1 Hreq1. peel H as u2 Hsig. peel H as data Hdata.
    peel H as dz Hdz. peel H as rc Hrc. peel H as sz Hsz. peel H as ad Had.
    peel H as u3 Hzone. peel H as m Hm. peel H as count Hcount.
    apply incr256_Ok in Hcount. destruct Hcount as [_ ->].
    injection H as <- <-. simpl.
    rewrite ids_upto_succ, Hd, Hs, Hp, !app_nil_r. auto.
  - unfold verifyPricing in H. peel H as u Hu. peel H as ul Hlib.
    injection H as <- <-. simpl. rewrite !app_nil_r. auto.
  - unfold validatePricing in H.
    peel H as u1 Hreq1. peel H as u2 Hsig. peel H as data Hdata.
    peel H as z Hz. peel H as m Hm. peel H as b Hb.
    destruct (isValid m b); injection H as <- <-; simpl;
      rewrite !app_nil_r; auto.
  - unfold requestPricingProof in H. peel H as u1 Hu. peel H as u2 Hv.
    peel H as ul Hlib.
    injection H as <- <-. simpl. rewrite !app_nil_r. auto.
  - unfold decryptMultiplier in H.
    peel H as u1 Hreq1. peel H as u2 Hsig. peel H as m Hm.
    injection H as <- <-. simpl. rewrite !app_nil_r. auto.
Qed.

Lemma exec_ids_dense cs : ids_dense (exec cs (genesis, [])).
Proof.
  apply exec_invariant; [|repeat split].
  intros [s t] c Hacc. unfold step. simpl.
  destruct (transact_cases c s) as [(s' & e & Hc & ->)|(err & _ & ->)];
    simpl.
  - eapply call_ids_dense; eassumption.
  - now rewrite app_nil_r.
Qed.

(** How a call moves the two submission counters. *)
Lemma transact_counters c s :
  (demandCount (fst (transact c s))
     = demandCount s +
       (if is_recordDemand c && (demandCount s <? max_uint256)
        then 1 else 0)) /\
  (supplyCount (fst (transact c s))
     = supplyCount s +
       (if is_recordSupply c && (supplyCount s <? max_uint256)
        then 1 else 0)).
Proof.
  destruct (transact_cases c s) as [(s' & e & H & ->)|(err & H & ->)];
    simpl; destruct c; simpl in H |- *.
  - unfold recordDemand in H. peel H as n Hn. apply incr256_Ok in Hn.
    destruct Hn as [Hlt ->]. apply N.ltb_lt in Hlt. rewrite Hlt.
    injection H as <- _. simpl. lia.
  - unfold recordSupply in H. peel H as n Hn. apply incr256_Ok in Hn.
    destruct Hn as [Hlt ->]. apply N.ltb_lt in Hlt. rewrite Hlt.
    injection H as <- _. simpl. lia.
  - unfold calculateSurgePricing in H. peel H as u Hu. peel H as ul Hlib.
    injection H as <- _. simpl. lia.
  - apply computePricing_counters in H. lia.
  - unfold verifyPricing in H. peel H as u Hu. peel H as ul Hlib.
    injection H as <- _. simpl. lia.
  - unfold validatePricing in H.
    peel H as u1 Hreq1. peel H as u2 Hsig. peel H as data Hdata.
    peel H as z Hz. peel H as m Hm. peel H as b Hb.
    destruct (isValid m b); injection H as <- _; simpl; lia.
  - unfold requestPricingProof in H. peel H as u1 Hu. peel H as u2 Hv.
    peel H as ul Hlib.
    injection H as <- _. simpl. lia.
  - apply decryptMultiplier_state in H. subst s'. lia.
  - unfold recordDemand, incr256 in H.
    destruct (demandCount s <? max_uint256); [discriminate|]. lia.
  - unfold recordSupply, incr256 in H.
    destruct (supplyCount s <? max_uint256); [discriminate|]. lia.
  - lia.
  - lia.
  - lia.
  - lia.
  - lia.
  - lia.
Qed.

Lemma exec_counts cs : forall acc,
  demandCount (fst acc) + N.of_nat (length cs) <= max_uint256 ->
  supplyCount (fst acc) + N.of_nat (length cs) <= max_uint256 ->
  demandCount (fst (exec cs acc))
    = demandCount (fst acc) + count_calls is_recordDemand cs /\
  supplyCount (fst (exec cs acc))
    = supplyCount (fst acc) + count_calls is_recordSupply cs.
Proof.
  unfold exec.
  induction cs as [|c cs IH]; intros [s t] Hd Hs; simpl in *; [lia|].
  destruct (transact_counters c s) as [Ed Es].
  assert (Hdl : (demandCount s <? max_uint256) = true)
    by (apply N.ltb_lt; lia).
  assert (Hsl : (supplyCount s <? max_uint256) = true)
    by (apply N.ltb_lt; lia).
  rewrite Hdl, andb_true_r in Ed. rewrite Hsl, andb_true_r in Es.
  specialize (IH (step (s, t) c)). unfold step in IH at 1 2. simpl in IH.
  destruct IH as [IHd IHs].
  - rewrite Ed. destruct (is_recordDemand c); lia.
  - rewrite Es. destruct (is_recordSupply c); lia.
  - rewrite IHd, IHs. unfold step. simpl. rewrite Ed, Es. lia.
Qed.

(** C9: along every history from deployment, the ids announced by
    [DemandRecorded] are 1, 2, ... up to [demandCount], in call order and
    without repeats, and likewise for [SupplyRecorded] with
    [supplyCount] and [PricingCalculated] with [pricingCount]; every
    successful pairing callback announces the next pricing id; and while
    the history is shorter than the [uint256] range every submission is
    served, so N calls of [recordDemand] are given the ids 1..N. *)
Theorem ids_sequential :
  forall cs,
    (demand_ids (log cs genesis) = ids_upto (demandCount (run cs genesis)) /\
     supply_ids (log cs genesis) = ids_upto (supplyCount (run cs genesis)) /\
     pricing_ids (log cs genesis)
       = ids_upto (pricingCount (run cs genesis))) /\
    (NoDup (demand_ids (log cs genesis)) /\
     NoDup (supply_ids (log cs genesis)) /\
     NoDup (pricing_ids (log cs genesis))) /\
    (forall s requestId cleartexts proof s' effects,
        computePricing requestId cleartexts proof s = Ok (s', effects) ->
        effects = [DecryptionFulfilled requestId;
                   PricingCalculated (pricingCount s + 1)] /\
        pricingCount s' = pricingCount s + 1) /\
    (N.of_nat (length cs) <= max_uint256 ->
     (demandCount (run cs genesis) = count_calls is_recordDemand cs /\
      supplyCount (run cs genesis) = count_calls is_recordSupply cs) /\
     demand_ids (log cs genesis)
       = ids_upto (count_calls is_recordDemand cs) /\
     supply_ids (log cs genesis)
       = ids_upto (count_calls is_recordSupply cs)).
Proof.
  intros cs. pose proof (exec_ids_dense cs) as Hdense.
  unfold ids_dense in Hdense. fold (log cs genesis) in Hdense.
  fold (run cs genesis) in Hdense. destruct Hdense as (Hd & Hs & Hp).
  split; [auto|]. split; [|split].
  - rewrite Hd, Hs, Hp. auto using ids_upto_NoDup.
  - intros s requestId cleartexts proof s' effects H.
    unfold computePricing in H.
    peel H as u1 Hreq1. peel H as u2 Hsig. peel H as data Hdata.
    peel H as dz Hdz. peel H as rc Hrc. peel H as sz Hsz. peel H as ad Had.
    peel H as u3 Hzone. peel H as m Hm. peel H as count Hcount.
    apply incr256_Ok in Hcount. destruct Hcount as [_ ->].
    now injection H as <- <-.
  - intros Hlen.
    destruct (exec_counts cs (genesis, [])) as [Ed Es]; simpl; try lia.
    fold (run cs genesis) in Ed, Es. simpl in Ed, Es.
    rewrite Ed in Hd. rewrite Es in Hs. rewrite Ed, Es. auto.
Qed.

End Properties.

(** ** The two request operations at id zero, and the product at the top of
    the [uint32] range *)

Lemma calculateSurgePricing_rejects_unallocated {env : Environment}
    s demandId supplyId reqId :
  demandCount s < demandId \/ supplyCount s < supplyId ->
  calculateSurgePricing demandId supplyId reqId s = Revert InvalidIDs.
Proof.
  intros H. unfold calculateSurgePricing.
  destruct (demandId <=? demandCount s) eqn:Ed;
    destruct (supplyId <=? supplyCount s) eqn:Es; try reflexivity.
  apply N.leb_le in Ed, Es. lia.
Qed.

Lemma verifyPricing_rejects_unallocated {env : Environment}
    s pricingId reqId :
  pricingCount s < pricingId ->
  verifyPricing pricingId reqId s = Revert InvalidPricingID.
Proof.
  intros H. unfold verifyPricing.
  destruct (pricingId <=? pricingCount s) eqn:E; [|reflexivity].
  apply N.leb_le in E. lia.
Qed.

Lemma pairing_requires_existing_fails :
  ~ @pairing_requires_existing Scenario.env genesis 0 0 41.
Proof.
  intros H.
  assert (Hno : ~ (1 <= 0 <= demandCount genesis /\
                   1 <= 0 <= supplyCount genesis)) by lia.
  specialize (H Hno). discriminate H.
Qed.

(** C7: the range check of [calculateSurgePricing] has no lower bound: with
    both ids zero the [require] passes in every state and the call goes on
    to [FHE.requestDecryption] with the handles of slot zero; whether it
    reverts is then the library's decision, and the revert is the
    library's, not [InvalidIDs].  [verifyPricing] treats pricing id zero in
    the same way.  On a library that refuses the zero handle both calls
    revert on the fresh contract with [RequestRefused], while an id above
    the counter is stopped by the contract's own check. *)
Theorem zero_ids_pass_range_check :
  (forall (env : Environment) s reqId,
      calculateSurgePricing 0 0 reqId s
        = if requestDecryption (pairingCiphertexts s 0 0)
               sel_computePricing reqId
          then Ok (mkState (demandCount s) (supplyCount s) (pricingCount s)
                     (rideDemands s) (driverSupplies s) (surgePricings s)
                     (<[reqId := 0]> (requestToDemandId s))
                     (<[reqId := 0]> (requestToSupplyId s))
                     (requestToPricingId s),
                   [DecryptionRequested reqId (pairingCiphertexts s 0 0)
                      sel_computePricing])
          else Revert RequestRefused) /\
  (forall (env : Environment) s reqId,
      verifyPricing 0 reqId s
        = if requestDecryption (verificationCiphertexts s 0)
               sel_validatePricing reqId
          then Ok (mkState (demandCount s) (supplyCount s) (pricingCount s)
                     (rideDemands s) (driverSupplies s) (surgePricings s)
                     (requestToDemandId s) (requestToSupplyId s)
                     (<[reqId := 0]> (requestToPricingId s)),
                   [DecryptionRequested reqId (verificationCiphertexts s 0)
                      sel_validatePricing])
          else Revert RequestRefused) /\
  @calculateSurgePricing Scenario.env 0 0 41 genesis
    = Revert RequestRefused /\
  @verifyPricing Scenario.env 0 42 genesis = Revert RequestRefused /\
  @calculateSurgePricing Scenario.env 1 1 41 genesis = Revert InvalidIDs /\
  @verifyPricing Scenario.env 1 42 genesis = Revert InvalidPricingID.
Proof.
  assert (Hzero : forall n, (0 <=? n) = true)
    by (intros n; apply N.leb_le, N.le_0_l).
  split; [|split; [|repeat split]].
  - intros env s reqId. unfold calculateSurgePricing. rewrite !Hzero.
    cbn [andb require bind].
    now destruct (requestDecryption (pairingCiphertexts s 0 0)
                    sel_computePricing reqId).
  - intros env s reqId. unfold verifyPricing. rewrite Hzero.
    cbn [require bind].
    now destruct (requestDecryption (verificationCiphertexts s 0)
                    sel_validatePricing reqId).
Qed.

Lemma product_out_of_range_reverts (requestCount availableDrivers : N) :
  42949673 <= requestCount -> availableDrivers <> 0 ->
  surgeMultiplier requestCount availableDrivers = Revert (Panic 17).
Proof.
  intros Hrc Had. unfold surgeMultiplier, mul32.
  apply N.eqb_neq in Had. rewrite Had.
  destruct (requestCount * 100 <=? max_uint32) eqn:E; [|reflexivity].
  apply N.leb_le in E. unfold max_uint32 in E. lia.
Qed.

Lemma surgeMultiplier_total_below (requestCount availableDrivers : N) :
  requestCount <= 42949672 ->
  exists m, surgeMultiplier requestCount availableDrivers = Ok m /\
            In m [100; 150; 200; 250; 300].
Proof.
  intros H. exists (spec_multiplier requestCount availableDrivers).
  split; [|apply spec_multiplier_bucket].
  apply surgeMultiplier_in_range. left. unfold max_uint32. lia.
Qed.

Lemma multiplier_total_fails : ~ multiplier_total 42949673 1.
Proof.
  intros H. destruct H as (m & Hm & _); [vm_compute; discriminate ..|].
  discriminate Hm.
Qed.

(** C8: the pricing branch is not total on [uint32]: at
    [requestCount = 42949673] with one driver the product
    [requestCount * 100] leaves [uint32], the checked multiplication panics
    and the whole pairing callback reverts, where the document's function
    gives 250. *)
Theorem surgeMultiplier_overflow :
  surgeMultiplier 42949673 1 = Revert (Panic 17) /\
  spec_multiplier 42949673 1 = 250 /\
  Scenario.call
    (ComputePricing 41 Scenario.overflow_cleartexts Scenario.validProof)
    Scenario.paired = Revert (Panic 17).
Proof.
  split; [reflexivity|]. split; [reflexivity|]. vm_compute. reflexivity.
Qed.

(** ** The document's statements on spent handles, at a concrete pairing *)

(** C1, as the document states it, fails: the pairing callback of request 41
    delivered a second time is accepted and creates pricing record 2. *)
Lemma replay_accepted :
  ~ @pairing_single_shot Scenario.env Scenario.paired 41
      Scenario.pairing_cleartexts Scenario.validProof /\
  pricingCount
    (Scenario.run
       [ ComputePricing 41 Scenario.pairing_cleartexts Scenario.validProof;
         ComputePricing 41 Scenario.pairing_cleartexts Scenario.validProof ]
       Scenario.paired) = 2.
Proof.
  split; [|vm_compute; reflexivity].
  intros H.
  assert (H1 : @computePricing Scenario.env 41 Scenario.pairing_cleartexts
                 Scenario.validProof Scenario.paired
               = Ok (Scenario.priced,
                     [DecryptionFulfilled 41; PricingCalculated 1]))
    by (vm_compute; reflexivity).
  specialize (H _ _ H1). vm_compute in H. discriminate H.
Qed.

(** C6, as the document states it, fails: after the pairing callback of
    request 41 is turned away for its proof, the handle still resolves to
    demand 1, and the callback with a valid proof goes through. *)
Lemma bad_proof_retry :
  ~ @bad_proof_consumes Scenario.env Scenario.paired 41
      Scenario.pairing_cleartexts Scenario.forgedProof /\
  Scenario.call
    (ComputePricing 41 Scenario.pairing_cleartexts Scenario.validProof)
    (fst (Scenario.transact
            (ComputePricing 41 Scenario.pairing_cleartexts
               Scenario.forgedProof)
            Scenario.paired))
    = Ok (Scenario.priced, [DecryptionFulfilled 41; PricingCalculated 1]).
Proof.
  split; [|vm_compute; reflexivity].
  intros H. unfold bad_proof_consumes in H.
  assert (H1 : @computePricing Scenario.env 41 Scenario.pairing_cleartexts
                 Scenario.forgedProof Scenario.paired
               = Revert InvalidSignatures)
    by (vm_compute; reflexivity).
  specialize (H H1). vm_compute in H. discriminate H.
Qed.

(** ** The theorems at the scenario of the document *)

Lemma computePricing_multiplier_witness :
  @computePricing Scenario.env 41 Scenario.pairing_cleartexts
    Scenario.validProof Scenario.paired
    = Ok (Scenario.priced, [DecryptionFulfilled 41; PricingCalculated 1]) /\
  pricingCount Scenario.priced = pricingCount Scenario.paired + 1 /\
  encryptedMultiplier (pricingAt Scenario.priced 1)
    = Scenario.trivialEncrypt 200.
Proof.
  assert (H : @computePricing Scenario.env 41 Scenario.pairing_cleartexts
                Scenario.validProof Scenario.paired
              = Ok (Scenario.priced,
                    [DecryptionFulfilled 41; PricingCalculated 1]))
    by (vm_compute; reflexivity).
  split; [exact H|].
  exact (proj1 (@computePricing_multiplier Scenario.env)
           Scenario.paired 41 Scenario.pairing_cleartexts Scenario.validProof
           Scenario.priced [DecryptionFulfilled 41; PricingCalculated 1]
           [7; 180; 7; 100] 180 100
           H eq_refl eq_refl eq_refl).
Defined.

Lemma record_frame_witness :
  demandCount genesis < max_uint256 /\
  @recordDemand Scenario.env 11 12 1700000000 genesis
    = Ok (mkState 1 0 0
            {[1 := mkRideDemand 11 12 (Scenario.trivialEncrypt 1700000000)]}
            ∅ ∅ ∅ ∅ ∅,
          [DemandRecorded 1]).
Proof.
  assert (H : demandCount genesis < max_uint256) by (vm_compute; reflexivity).
  split; [exact H|].
  exact (proj1 (proj1 (@record_frame Scenario.env)
                  genesis 11 12 1700000000 H)).
Defined.

Lemma requestPricingProof_gate_witness :
  @getPricingStatus Scenario.priced 1 = false /\
  1 <= pricingCount Scenario.priced /\
  @requestPricingProof Scenario.env 1 44 Scenario.priced = Revert NotVerified /\
  Scenario.transact (RequestPricingProof 1 44) Scenario.priced
    = (Scenario.priced, []).
Proof.
  assert (H : getPricingStatus Scenario.priced 1 = false)
    by (vm_compute; reflexivity).
  assert (Hle : 1 <= pricingCount Scenario.priced)
    by (vm_compute; discriminate).
  split; [exact H|]. split; [exact Hle|].
  destruct (proj1 (@requestPricingProof_gate Scenario.env)
              Scenario.priced 1 44 H) as [(e & He & Hnv) Hsame].
  split; [|exact Hsame].
  rewrite He. f_equal. exact (Hnv Hle).
Defined.

Lemma zone_gate_witness :
  Scenario.decode_array Scenario.mismatch_cleartexts = Some [7; 180; 8; 100] /\
  7 <> 8 /\
  Scenario.call
    (ComputePricing 41 Scenario.mismatch_cleartexts Scenario.validProof)
    Scenario.paired = Revert ZoneMismatch /\
  Scenario.transact
    (ComputePricing 41 Scenario.mismatch_cleartexts Scenario.validProof)
    Scenario.paired = (Scenario.paired, []).
Proof.
  assert (Hdec : Scenario.decode_array Scenario.mismatch_cleartexts
                 = Some [7; 180; 8; 100]) by (vm_compute; reflexivity).
  assert (Hne : 7 <> 8) by discriminate.
  split; [exact Hdec|]. split; [exact Hne|].
  destruct (@zone_gate Scenario.env Scenario.paired 41
              Scenario.mismatch_cleartexts Scenario.validProof
              [7; 180; 8; 100] 7 180 8 100 Hdec eq_refl eq_refl eq_refl
              eq_refl Hne) as [(e & He & Hz) Hsame].
  split; [|exact Hsame].
  unfold Scenario.call, call. rewrite He. f_equal.
  apply Hz; vm_compute; solve [discriminate | reflexivity].
Defined.

Lemma callbacks_keep_handles_witness :
  demandIdOf genesis 41 = 0 /\
  @computePricing Scenario.env 41 Scenario.pairing_cleartexts
    Scenario.validProof genesis = Revert InvalidRequest /\
  pricingCount Scenario.priced < max_uint256 /\
  exists s2,
    @computePricing Scenario.env 41 Scenario.pairing_cleartexts
      Scenario.validProof Scenario.priced
      = Ok (s2, [DecryptionFulfilled 41; PricingCalculated 2]) /\
    pricingCount s2 = 2.
Proof.
  assert (H0 : demandIdOf genesis 41 = 0) by reflexivity.
  assert (H1 : @computePricing Scenario.env 41 Scenario.pairing_cleartexts
                 Scenario.validProof Scenario.paired
               = Ok (Scenario.priced,
                     [DecryptionFulfilled 41; PricingCalculated 1]))
    by (vm_compute; reflexivity).
  assert (Hlt : pricingCount Scenario.priced < max_uint256)
    by (vm_compute; reflexivity).
  destruct (@callbacks_keep_handles Scenario.env)
    as (Hunknown & _ & Hreplay & _).
  split; [exact H0|].
  split; [exact (proj1 (Hunknown genesis 41 Scenario.pairing_cleartexts
                          Scenario.validProof) (or_introl H0))|].
  split; [exact Hlt|].
  exact (Hreplay _ _ _ _ _ _ H1 Hlt).
Defined.

Lemma bad_proof_keeps_handle_witness :
  Scenario.signaturesOk 41 Scenario.pairing_cleartexts Scenario.forgedProof
    = false /\
  demandIdOf Scenario.paired 41 <> 0 /\
  supplyIdOf Scenario.paired 41 <> 0 /\
  @computePricing Scenario.env 41 Scenario.pairing_cleartexts
    Scenario.forgedProof Scenario.paired = Revert InvalidSignatures /\
  Scenario.transact
    (ComputePricing 41 Scenario.pairing_cleartexts Scenario.forgedProof)
    Scenario.paired = (Scenario.paired, []).
Proof.
  assert (Hsig : Scenario.signaturesOk 41 Scenario.pairing_cleartexts
                   Scenario.forgedProof = false) by reflexivity.
  assert (Hd : demandIdOf Scenario.paired 41 <> 0)
    by (vm_compute; discriminate).
  assert (Hs : supplyIdOf Scenario.paired 41 <> 0)
    by (vm_compute; discriminate).
  destruct (@bad_proof_keeps_handle Scenario.env Scenario.paired 41
              Scenario.pairing_cleartexts Scenario.forgedProof Hsig)
    as (Hpair & _ & Hsame & _).
  split; [exact Hsig|]. split; [exact Hd|]. split; [exact Hs|].
  split; [exact (Hpair Hd Hs) | exact Hsame].
Defined.

Lemma verified_monotone_witness :
  @getPricingStatus (Scenario.run Scenario.verified_history genesis) 1
    = true /\
  @getPricingStatus
    (Scenario.run Scenario.later_calls
       (Scenario.run Scenario.verified_history genesis)) 1 = true.
Proof.
  assert (H : getPricingStatus
                (Scenario.run Scenario.verified_history genesis) 1 = true)
    by (vm_compute; reflexivity).
  split; [exact H|].
  exact (proj2 (@verified_monotone Scenario.env)
           Scenario.verified_history Scenario.later_calls 1 H).
Defined.

Lemma ids_sequential_witness :
  N.of_nat (length Scenario.verified_history) <= max_uint256 /\
  (demandCount (Scenario.run Scenario.verified_history genesis)
     = count_calls is_recordDemand Scenario.verified_history /\
   supplyCount (Scenario.run Scenario.verified_history genesis)
     = count_calls is_recordSupply Scenario.verified_history) /\
  demand_ids (Scenario.log Scenario.verified_history genesis)
    = ids_upto (count_calls is_recordDemand Scenario.verified_history) /\
  supply_ids (Scenario.log Scenario.verified_history genesis)
    = ids_upto (count_calls is_recordSupply Scenario.verified_history).
Proof.
  assert (H : N.of_nat (length Scenario.verified_history) <= max_uint256)
    by (vm_compute; discriminate).
  split; [exact H|].
  exact (proj2 (proj2 (proj2 (@ids_sequential Scenario.env
                                Scenario.verified_history))) H).
Defined.

(** * Further properties of the contract *)

(** ** What a successful call has checked and written *)

Section Inversion.

Context {env : Environment}.

Lemma recordDemand_inv zoneId requestCount timestamp s s' e :
  recordDemand zoneId requestCount timestamp s = Ok (s', e) ->
  demandCount s < max_uint256 /\
  s' = mkState (demandCount s + 1) (supplyCount s) (pricingCount s)
         (<[demandCount s + 1 :=
              mkRideDemand zoneId requestCount
                (asEuint32 (to_uint32 timestamp))]> (rideDemands s))
         (driverSupplies s) (surgePricings s)
         (requestToDemandId s) (requestToSupplyId s) (requestToPricingId s) /\
  e = [DemandRecorded (demandCount s + 1)].
Proof.
  unfold recordDemand. intros H. peel H as n Hn.
  apply incr256_Ok in Hn. destruct Hn as [Hlt ->].
  injection H as <- <-. auto.
Qed.

Lemma recordSupply_inv zoneId availableDrivers timestamp s s' e :
  recordSupply zoneId availableDrivers timestamp s = Ok (s', e) ->
  supplyCount s < max_uint256 /\
  s' = mkState (demandCount s) (supplyCount s + 1) (pricingCount s)
         (rideDemands s)
         (<[supplyCount s + 1 :=
              mkDriverSupply zoneId availableDrivers
                (asEuint32 (to_uint32 timestamp))]> (driverSupplies s))
         (surgePricings s)
         (requestToDemandId s) (requestToSupplyId s) (requestToPricingId s) /\
  e = [SupplyRecorded (supplyCount s + 1)].
Proof.
  unfold recordSupply. intros H. peel H as n Hn.
  apply incr256_Ok in Hn. destruct Hn as [Hlt ->].
  injection H as <- <-. auto.
Qed.

Lemma calculateSurgePricing_inv demandId supplyId reqId s s' e :
  calculateSurgePricing demandId supplyId reqId s = Ok (s', e) ->
  demandId <= demandCount s /\ supplyId <= supplyCount s /\
  requestDecryption (pairingCiphertexts s demandId supplyId)
    sel_computePricing reqId = true /\
  s' = mkState (demandCount s) (supplyCount s) (pricingCount s)
         (rideDemands s) (driverSupplies s) (surgePricings s)
         (<[reqId := demandId]> (requestToDemandId s))
         (<[reqId := supplyId]> (requestToSupplyId s))
         (requestToPricingId s) /\
  e = [DecryptionRequested reqId (pairingCiphertexts s demandId supplyId)
         sel_computePricing].
Proof.
  unfold calculateSurgePricing. intros H. peel H as u Hu.
  peel H as ul Hlib. apply require_Ok in Hlib.
  apply require_Ok, andb_true_iff in Hu. destruct Hu as [Hd Hs].
  apply N.leb_le in Hd, Hs. injection H as <- <-. auto.
Qed.

Lemma computePricing_inv requestId cleartexts proof s s' e :
  computePricing requestId cleartexts proof s = Ok (s', e) ->
  exists data zone requestCount availableDrivers multiplier,
    demandIdOf s requestId <> 0 /\ supplyIdOf s requestId <> 0 /\
    checkSignatures requestId cleartexts proof = true /\
    decode_uint32_array cleartexts = Some data /\
    data !! 0%nat = Some zone /\ data !! 1%nat = Some requestCount /\
    data !! 2%nat = Some zone /\ data !! 3%nat = Some availableDrivers /\
    surgeMultiplier requestCount availableDrivers = Ok multiplier /\
    pricingCount s < max_uint256 /\
    s' = mkState (demandCount s) (supplyCount s) (pricingCount s + 1)
           (rideDemands s) (driverSupplies s)
           (<[pricingCount s + 1 :=
                mkSurgePricing (asEuint32 zone) (asEuint32 multiplier)
                  (asEuint32 1000) false]> (surgePricings s))
           (requestToDemandId s) (requestToSupplyId s)
           (requestToPricingId s) /\
    e = [DecryptionFulfilled requestId;
         PricingCalculated (pricingCount s + 1)].
Proof.
  unfold computePricing. intros H.
  peel H as u1 Hreq. peel H as u2 Hsig. peel H as data Hdata.
  peel H as dz Hdz. peel H as rc Hrc. peel H as sz Hsz. peel H as ad Had.
  peel H as u3 Hzone. peel H as m Hm. peel H as count Hcount.
  apply require_Ok, andb_true_iff in Hreq. destruct Hreq as [Hd Hs].
  apply negb_true_iff, N.eqb_neq in Hd, Hs.
  apply require_Ok in Hsig. apply abi_decode_Ok in Hdata.
  apply index_Ok in Hdz, Hrc, Hsz, Had.
  apply require_Ok, N.eqb_eq in Hzone. subst sz.
  apply incr256_Ok in Hcount. destruct Hcount as [Hlt ->].
  injection H as <- <-.
  exists data, dz, rc, ad, m. repeat (split; [assumption|]). auto.
Qed.

Lemma verifyPricing_inv pricingId reqId s s' e :
  verifyPricing pricingId reqId s = Ok (s', e) ->
  pricingId <= pricingCount s /\
  requestDecryption (verificationCiphertexts s pricingId)
    sel_validatePricing reqId = true /\
  s' = mkState (demandCount s) (supplyCount s) (pricingCount s)
         (rideDemands s) (driverSupplies s) (surgePricings s)
         (requestToDemandId s) (requestToSupplyId s)
         (<[reqId := pricingId]> (requestToPricingId s)) /\
  e = [DecryptionRequested reqId (verificationCiphertexts s pricingId)
         sel_validatePricing].
Proof.
  unfold verifyPricing. intros H. peel H as u Hu.
  peel H as ul Hlib. apply require_Ok in Hlib.
  apply require_Ok, N.leb_le in Hu. injection H as <- <-. auto.
Qed.

Lemma validatePricing_inv requestId cleartexts proof s s' e :
  validatePricing requestId cleartexts proof s = Ok (s', e) ->
  exists data zone multiplier basePrice,
    pricingIdOf s requestId <> 0 /\
    checkSignatures requestId cleartexts proof = true /\
    decode_uint32_array cleartexts = Some data /\
    data !! 0%nat = Some zone /\ data !! 1%nat = Some multiplier /\
    data !! 2%nat = Some basePrice /\
    ((isValid multiplier basePrice = true /\
      s' = mkState (demandCount s) (supplyCount s) (pricingCount s)
             (rideDemands s) (driverSupplies s)
             (<[pricingIdOf s requestId :=
                  markVerified (pricingAt s (pricingIdOf s requestId))]>
                (surgePricings s))
             (requestToDemandId s) (requestToSupplyId s)
             (requestToPricingId s) /\
      e = [DecryptionFulfilled requestId;
           PricingVerified (pricingIdOf s requestId)]) \/
     (isValid multiplier basePrice = false /\ s' = s /\
      e = [DecryptionFulfilled requestId])).
Proof.
  unfold validatePricing. intros H.
  peel H as u1 Hreq. peel H as u2 Hsig. peel H as data Hdata.
  peel H as z Hz. peel H as m Hm. peel H as b Hb.
  apply require_Ok, negb_true_iff, N.eqb_neq in Hreq.
  apply require_Ok in Hsig. apply abi_decode_Ok in Hdata.
  apply index_Ok in Hz, Hm, Hb.
  exists data, z, m, b. repeat (split; [assumption|]).
  destruct (isValid m b); injection H as <- <-; auto.
Qed.

Lemma requestPricingProof_inv pricingId reqId s s' e :
  requestPricingProof pricingId reqId s = Ok (s', e) ->
  pricingId <= pricingCount s /\
  isVerified (pricingAt s pricingId) = true /\
  requestDecryption (disclosureCiphertexts s pricingId)
    sel_decryptMultiplier reqId = true /\
  s' = mkState (demandCount s) (supplyCount s) (pricingCount s)
         (rideDemands s) (driverSupplies s) (surgePricings s)
         (requestToDemandId s) (requestToSupplyId s)
         (<[reqId := pricingId]> (requestToPricingId s)) /\
  e = [DecryptionRequested reqId (disclosureCiphertexts s pricingId)
         sel_decryptMultiplier].
Proof.
  unfold requestPricingProof. intros H. peel H as u1 Hu. peel H as u2 Hv.
  peel H as ul Hlib. apply require_Ok in Hlib.
  apply require_Ok, N.leb_le in Hu. apply require_Ok in Hv.
  injection H as <- <-. auto.
Qed.

Lemma decryptMultiplier_inv requestId cleartexts proof s s' e :
  decryptMultiplier requestId cleartexts proof s = Ok (s', e) ->
  pricingIdOf s requestId <> 0 /\
  checkSignatures requestId cleartexts proof = true /\
  (exists m, decode_uint32 cleartexts = Some m) /\
  s' = s /\ e = [DecryptionFulfilled requestId].
Proof.
  unfold decryptMultiplier. intros H.
  peel H as u1 Hreq. peel H as u2 Hsig. peel H as m Hm.
  apply require_Ok, negb_true_iff, N.eqb_neq in Hreq.
  apply require_Ok in Hsig. apply abi_decode_Ok in Hm.
  injection H as <- <-. eauto 6.
Qed.

End Inversion.

(** ** Callbacks: when they go through and what they write *)

Lemma isValid_band (multiplier basePrice : N) :
  isValid multiplier basePrice = true <->
  100 <= multiplier <= 300 /\ 0 < basePrice.
Proof.
  unfold isValid. rewrite !andb_true_iff, !N.leb_le, N.ltb_lt. tauto.
Qed.

Lemma index_short (data : list N) (i : nat) :
  (length data <= i)%nat -> index data i = Revert (Panic 50).
Proof.
  intros H. unfold index. now rewrite (proj2 (lookup_ge_None data i) H).
Qed.

Section Callbacks.

Context {env : Environment}.

(** X1: [computePricing] goes through exactly when the handle resolves to
    non-zero demand and supply ids, the signature check passes, the payload
    decodes to at least four values whose first and third agree, the
    drivers are zero or the hundredfold of the request count fits
    [uint32], and [pricingCount] is below the [uint256] maximum. *)
Theorem computePricing_succeeds_iff :
  forall s requestId cleartexts proof,
    (exists s' e, computePricing requestId cleartexts proof s = Ok (s', e)) <->
    (demandIdOf s requestId <> 0 /\ supplyIdOf s requestId <> 0 /\
     checkSignatures requestId cleartexts proof = true /\
     (exists data zone requestCount availableDrivers,
         decode_uint32_array cleartexts = Some data /\
         data !! 0%nat = Some zone /\ data !! 1%nat = Some requestCount /\
         data !! 2%nat = Some zone /\ data !! 3%nat = Some availableDrivers /\
         (availableDrivers = 0 \/ requestCount * 100 <= max_uint32)) /\
     pricingCount s < max_uint256).
Proof.
  intros s requestId cleartexts proof. split.
  - intros (s' & e & H). apply computePricing_inv in H.
    destruct H as (data & z & rc & ad & m & Hd & Hs & Hsig & Hdec & H0 & H1
                   & H2 & H3 & Hm & Hlt & _ & _).
    repeat (split; [assumption|]). split; [|assumption].
    exists data, z, rc, ad. repeat (split; [assumption|]).
    unfold surgeMultiplier, mul32 in Hm.
    destruct (ad =? 0) eqn:Ead; [left; now apply N.eqb_eq|right].
    destruct (rc * 100 <=? max_uint32) eqn:Emul; [|discriminate].
    now apply N.leb_le.
  - intros (Hd & Hs & Hsig & (data & z & rc & ad & Hdec & H0 & H1 & H2 & H3
                              & Hfit) & Hlt).
    unfold computePricing.
    apply N.eqb_neq in Hd, Hs. rewrite Hd, Hs, Hsig. cbn [negb andb require bind].
    rewrite Hdec. cbn [abi_decode bind].
    rewrite (index_Some _ _ _ H0), (index_Some _ _ _ H1),
      (index_Some _ _ _ H2), (index_Some _ _ _ H3). cbn [bind].
    rewrite N.eqb_refl. cbn [require bind].
    rewrite surgeMultiplier_in_range by tauto. cbn [bind].
    rewrite (incr256_lt _ Hlt). cbn [bind]. eauto.
Qed.

(** X2: with a registered handle and a valid signature, a payload that does
    not decode reverts the callback, and one that decodes to fewer values
    than the callback reads (four for pairing, three for verification)
    reverts it with the out-of-bounds panic. *)
Theorem malformed_payload_reverts :
  forall s requestId cleartexts proof,
    checkSignatures requestId cleartexts proof = true ->
    (demandIdOf s requestId <> 0 -> supplyIdOf s requestId <> 0 ->
     (decode_uint32_array cleartexts = None ->
      computePricing requestId cleartexts proof s = Revert DecodeFailure) /\
     (forall data, decode_uint32_array cleartexts = Some data ->
                   (length data < 4)%nat ->
      computePricing requestId cleartexts proof s = Revert (Panic 50))) /\
    (pricingIdOf s requestId <> 0 ->
     (decode_uint32_array cleartexts = None ->
      validatePricing requestId cleartexts proof s = Revert DecodeFailure) /\
     (forall data, decode_uint32_array cleartexts = Some data ->
                   (length data < 3)%nat ->
      validatePricing requestId cleartexts proof s = Revert (Panic 50)) /\
     (decode_uint32 cleartexts = None ->
      decryptMultiplier requestId cleartexts proof s = Revert DecodeFailure)).
Proof.
  intros s requestId cleartexts proof Hsig. split.
  - intros Hd Hs. apply N.eqb_neq in Hd, Hs. unfold computePricing.
    rewrite Hd, Hs, Hsig. cbn [negb andb require bind]. split.
    + now intros ->.
    + intros data -> Hlen. cbn [abi_decode bind].
      destruct data as [|a [|b [|c [|d data]]]]; simpl in Hlen;
        try reflexivity. lia.
  - intros Hp. apply N.eqb_neq in Hp.
    unfold validatePricing, decryptMultiplier.
    rewrite Hp, Hsig. cbn [negb require bind]. split; [|split].
    + now intros ->.
    + intros data -> Hlen. cbn [abi_decode bind].
      destruct data as [|a [|b [|c data]]]; simpl in Hlen;
        try reflexivity. lia.
    + now intros ->.
Qed.

(** X3: a verification callback with a registered handle, a valid signature
    and a payload of at least three values never reverts and always logs
    the library's [DecryptionFulfilled].  When the second value lies in
    100..300 and the third is positive it sets [isVerified] on the slot the
    handle resolves to, keeps the three encrypted fields of that slot and
    every other slot, and also emits [PricingVerified]; otherwise it leaves
    storage as it was and emits no [PricingVerified].  The payload is not
    compared with the stored record. *)
Theorem validatePricing_outcome :
  forall s requestId cleartexts proof data zone multiplier basePrice,
    pricingIdOf s requestId <> 0 ->
    checkSignatures requestId cleartexts proof = true ->
    decode_uint32_array cleartexts = Some data ->
    data !! 0%nat = Some zone -> data !! 1%nat = Some multiplier ->
    data !! 2%nat = Some basePrice ->
    (100 <= multiplier <= 300 /\ 0 < basePrice ->
     exists s',
       validatePricing requestId cleartexts proof s
         = Ok (s', [DecryptionFulfilled requestId;
                    PricingVerified (pricingIdOf s requestId)]) /\
       getPricingStatus s' (pricingIdOf s requestId) = true /\
       pricingFields (pricingAt s' (pricingIdOf s requestId))
         = pricingFields (pricingAt s (pricingIdOf s requestId)) /\
       (forall id, id <> pricingIdOf s requestId ->
                   surgePricings s' !! id = surgePricings s !! id) /\
       pricingCount s' = pricingCount s) /\
    (~ (100 <= multiplier <= 300 /\ 0 < basePrice) ->
     validatePricing requestId cleartexts proof s
       = Ok (s, [DecryptionFulfilled requestId])).
Proof.
  intros s requestId cleartexts proof data z m b Hp Hsig Hdec H0 H1 H2.
  apply N.eqb_neq in Hp. unfold validatePricing.
  rewrite Hp, Hsig. cbn [negb require bind]. rewrite Hdec.
  cbn [abi_decode bind].
  rewrite (index_Some _ _ _ H0), (index_Some _ _ _ H1),
    (index_Some _ _ _ H2). cbn [bind]. split.
  - intros Hband. apply isValid_band in Hband. rewrite Hband.
    eexists. split; [reflexivity|].
    unfold getPricingStatus, pricingAt. simpl.
    rewrite lookup_insert_eq. simpl. repeat split.
    intros id Hne. now rewrite lookup_insert_ne.
  - intros Hband. destruct (isValid m b) eqn:E; [|reflexivity].
    apply isValid_band in E. contradiction.
Qed.

(** X4: the disclosure callback never writes storage: it goes through
    exactly when the handle resolves to a non-zero pricing id, the
    signature check passes and the payload decodes; it then leaves storage
    as it was and logs only the library's [DecryptionFulfilled]; and
    whether it goes through or reverts, storage after the transaction is
    storage before it. *)
Theorem decryptMultiplier_readonly :
  forall s requestId cleartexts proof,
    (decryptMultiplier requestId cleartexts proof s
       = Ok (s, [DecryptionFulfilled requestId]) <->
     pricingIdOf s requestId <> 0 /\
     checkSignatures requestId cleartexts proof = true /\
     decode_uint32 cleartexts <> None) /\
    (forall s' e,
        decryptMultiplier requestId cleartexts proof s = Ok (s', e) ->
        s' = s /\ e = [DecryptionFulfilled requestId]) /\
    fst (transact (DecryptMultiplier requestId cleartexts proof) s) = s.
Proof.
  intros s requestId cleartexts proof. split; [|split].
  - split.
    + intros H. apply decryptMultiplier_inv in H.
      destruct H as (Hp & Hsig & (m & Hm) & _). rewrite Hm. auto.
    + intros (Hp & Hsig & Hm). apply N.eqb_neq in Hp.
      unfold decryptMultiplier. rewrite Hp, Hsig.
      destruct (decode_uint32 cleartexts); [reflexivity | contradiction].
  - intros s' e H. apply decryptMultiplier_inv in H.
    destruct H as (_ & _ & _ & -> & ->). auto.
  - unfold transact, call.
    destruct (decryptMultiplier requestId cleartexts proof s)
      as [[s' e]|err] eqn:H; [|reflexivity].
    apply decryptMultiplier_inv in H. destruct H as (_ & _ & _ & -> & _).
    reflexivity.
Qed.

(** X5: a pairing request on existing records stands or falls with the
    library call.  When [FHE.requestDecryption] returns the request id, the
    request id resolves afterwards to the two ids given, every other
    request id resolves as before, and counters, records and pricing
    handles are untouched; when the library reverts, so does the call. *)
Theorem calculateSurgePricing_registers :
  forall s demandId supplyId reqId,
    1 <= demandId <= demandCount s -> 1 <= supplyId <= supplyCount s ->
    (requestDecryption (pairingCiphertexts s demandId supplyId)
       sel_computePricing reqId = true ->
     exists s',
       calculateSurgePricing demandId supplyId reqId s
         = Ok (s', [DecryptionRequested reqId
                      (pairingCiphertexts s demandId supplyId)
                      sel_computePricing]) /\
       demandIdOf s' reqId = demandId /\ supplyIdOf s' reqId = supplyId /\
       (forall r, r <> reqId ->
                  demandIdOf s' r = demandIdOf s r /\
                  supplyIdOf s' r = supplyIdOf s r) /\
       (forall r, pricingIdOf s' r = pricingIdOf s r) /\
       (demandCount s', supplyCount s', pricingCount s')
         = (demandCount s, supplyCount s, pricingCount s) /\
       (rideDemands s', driverSupplies s', surgePricings s')
         = (rideDemands s, driverSupplies s, surgePricings s)) /\
    (requestDecryption (pairingCiphertexts s demandId supplyId)
       sel_computePricing reqId = false ->
     calculateSurgePricing demandId supplyId reqId s
       = Revert RequestRefused).
Proof.
  intros s d sup r [_ Hd] [_ Hs]. unfold calculateSurgePricing.
  apply N.leb_le in Hd, Hs. rewrite Hd, Hs. cbn [andb require bind].
  cbv zeta. split; intros Hlib; rewrite Hlib; [|reflexivity].
  cbn [require bind]. eexists. split; [reflexivity|].
  unfold demandIdOf, supplyIdOf, pricingIdOf. simpl.
  rewrite !lookup_insert_eq. simpl. repeat split.
  - rewrite lookup_insert_ne by congruence. reflexivity.
  - rewrite lookup_insert_ne by congruence. reflexivity.
Qed.

(** X6: a pairing request on existing records that the library accepts,
    followed by its callback, goes through: with ids in 1..count,
    [FHE.requestDecryption] returning the request id, a valid signature, a
    payload [zone, requestCount, zone, availableDrivers] whose product fits
    and [pricingCount] below the maximum, the two calls succeed in
    sequence and the new slot holds the encrypted zone, the encrypted
    bucket of the pair, the encrypted base price 1000 and
    [isVerified = false]. *)
Theorem pairing_completes :
  forall s demandId supplyId reqId cleartexts proof data
         zone requestCount availableDrivers,
    1 <= demandId <= demandCount s -> 1 <= supplyId <= supplyCount s ->
    requestDecryption (pairingCiphertexts s demandId supplyId)
      sel_computePricing reqId = true ->
    checkSignatures reqId cleartexts proof = true ->
    decode_uint32_array cleartexts = Some data ->
    data !! 0%nat = Some zone -> data !! 1%nat = Some requestCount ->
    data !! 2%nat = Some zone -> data !! 3%nat = Some availableDrivers ->
    availableDrivers = 0 \/ requestCount * 100 <= max_uint32 ->
    pricingCount s < max_uint256 ->
    exists s1 e1 s2,
      calculateSurgePricing demandId supplyId reqId s = Ok (s1, e1) /\
      computePricing reqId cleartexts proof s1
        = Ok (s2, [DecryptionFulfilled reqId;
                   PricingCalculated (pricingCount s + 1)]) /\
      pricingCount s2 = pricingCount s + 1 /\
      surgePricings s2 !! (pricingCount s + 1)
        = Some (mkSurgePricing (asEuint32 zone)
                  (asEuint32 (spec_multiplier requestCount availableDrivers))
                  (asEuint32 1000) false).
Proof.
  intros s d sup r ct p data z rc ad Hd Hs Hlib Hsig Hdec H0 H1 H2 H3 Hfit
    Hlt.
  unfold calculateSurgePricing.
  rewrite (proj2 (N.leb_le _ _) (proj2 Hd)), (proj2 (N.leb_le _ _) (proj2 Hs)).
  cbn [andb require bind]. cbv zeta. rewrite Hlib. cbn [require bind].
  eexists _, _, _. split; [reflexivity|].
  unfold computePricing, demandIdOf, supplyIdOf. simpl.
  rewrite !lookup_insert_eq. simpl.
  assert (Ed : (d =? 0) = false) by (apply N.eqb_neq; lia).
  assert (Es : (sup =? 0) = false) by (apply N.eqb_neq; lia).
  rewrite Ed, Es, Hsig. cbn [negb andb require bind]. rewrite Hdec.
  cbn [abi_decode bind].
  rewrite (index_Some _ _ _ H0), (index_Some _ _ _ H1),
    (index_Some _ _ _ H2), (index_Some _ _ _ H3). cbn [bind].
  rewrite N.eqb_refl. cbn [require bind].
  rewrite surgeMultiplier_in_range by tauto. cbn [bind].
  rewrite (incr256_lt _ Hlt). cbn [bind].
  split; [reflexivity|]. simpl. split; [reflexivity|].
  now rewrite lookup_insert_eq.
Qed.

(** X7: when the library accepts both requests, verification of an existing
    record followed by its callback with a payload in the band sets the
    flag, after which a disclosure request on that record is accepted and
    asks for the decryption of the stored multiplier handle alone. *)
Theorem verification_completes :
  forall s pricingId reqId reqId' cleartexts proof data
         zone multiplier basePrice,
    1 <= pricingId <= pricingCount s ->
    requestDecryption (verificationCiphertexts s pricingId)
      sel_validatePricing reqId = true ->
    requestDecryption (disclosureCiphertexts s pricingId)
      sel_decryptMultiplier reqId' = true ->
    checkSignatures reqId cleartexts proof = true ->
    decode_uint32_array cleartexts = Some data ->
    data !! 0%nat = Some zone -> data !! 1%nat = Some multiplier ->
    data !! 2%nat = Some basePrice ->
    100 <= multiplier <= 300 -> 0 < basePrice ->
    exists s1 e1 s2 s3,
      verifyPricing pricingId reqId s = Ok (s1, e1) /\
      validatePricing reqId cleartexts proof s1
        = Ok (s2, [DecryptionFulfilled reqId; PricingVerified pricingId]) /\
      getPricingStatus s2 pricingId = true /\
      requestPricingProof pricingId reqId' s2
        = Ok (s3, [DecryptionRequested reqId'
                     [encryptedMultiplier (pricingAt s pricingId)]
                     sel_decryptMultiplier]) /\
      pricingIdOf s3 reqId' = pricingId.
Proof.
  intros s pid r r' ct p data z m b Hpid Hlib Hlib' Hsig Hdec H0 H1 H2 Hm Hb.
  unfold verifyPricing.
  rewrite (proj2 (N.leb_le _ _) (proj2 Hpid)). cbn [require bind].
  cbv zeta. rewrite Hlib. cbn [require bind].
  eexists _, _, _, _. split; [reflexivity|].
  unfold validatePricing, pricingIdOf. simpl. rewrite lookup_insert_eq.
  simpl. assert (Ep : (pid =? 0) = false) by (apply N.eqb_neq; lia).
  rewrite Ep, Hsig. cbn [negb require bind]. rewrite Hdec.
  cbn [abi_decode bind].
  rewrite (index_Some _ _ _ H0), (index_Some _ _ _ H1),
    (index_Some _ _ _ H2). cbn [bind].
  rewrite (proj2 (isValid_band m b) (conj Hm Hb)).
  split; [reflexivity|].
  unfold getPricingStatus, requestPricingProof, disclosureCiphertexts,
    pricingAt in *. simpl.
  rewrite !lookup_insert_eq. simpl.
  rewrite (proj2 (N.leb_le _ _) (proj2 Hpid)). cbn [require bind].
  split; [reflexivity|]. rewrite Hlib'. cbn [require bind].
  split; [reflexivity|].
  simpl. now rewrite lookup_insert_eq.
Qed.

(** X8: verification and disclosure handles live in one map and are not
    told apart: a request id opened by [requestPricingProof] is accepted by
    [validatePricing], and one opened by [verifyPricing] is accepted by
    [decryptMultiplier]. *)
Theorem pricing_handles_interchangeable :
  forall s pricingId reqId cleartexts proof s' e,
    pricingId <> 0 ->
    checkSignatures reqId cleartexts proof = true ->
    (requestPricingProof pricingId reqId s = Ok (s', e) ->
     forall data zone multiplier basePrice,
       decode_uint32_array cleartexts = Some data ->
       data !! 0%nat = Some zone -> data !! 1%nat = Some multiplier ->
       data !! 2%nat = Some basePrice ->
       exists s'' e',
         validatePricing reqId cleartexts proof s' = Ok (s'', e')) /\
    (verifyPricing pricingId reqId s = Ok (s', e) ->
     decode_uint32 cleartexts <> None ->
     decryptMultiplier reqId cleartexts proof s'
       = Ok (s', [DecryptionFulfilled reqId])).
Proof.
  intros s pid r ct p s' e Hpid Hsig.
  apply N.eqb_neq in Hpid. split.
  - intros H data z m b Hdec H0 H1 H2.
    apply requestPricingProof_inv in H. destruct H as (_ & _ & _ & -> & _).
    unfold validatePricing, pricingIdOf. simpl. rewrite lookup_insert_eq.
    simpl. rewrite Hpid, Hsig. cbn [negb require bind]. rewrite Hdec.
    cbn [abi_decode bind].
    rewrite (index_Some _ _ _ H0), (index_Some _ _ _ H1),
      (index_Some _ _ _ H2). cbn [bind].
    destruct (isValid m b); eauto.
  - intros H Hdec. apply verifyPricing_inv in H.
    destruct H as (_ & _ & -> & _).
    unfold decryptMultiplier, pricingIdOf. simpl. rewrite lookup_insert_eq.
    simpl. rewrite Hpid, Hsig. cbn [negb require bind].
    destruct (decode_uint32 ct); [reflexivity | contradiction].
Qed.

End Callbacks.

(** ** Histories: what every reachable state looks like *)

Section Histories.

Context {env : Environment}.

(** Case analysis on a successful call, with what it checked and wrote. *)
Ltac invert_call H :=
  match type of H with
  | call ?c _ = Ok _ => destruct c; simpl in H
  end;
  [ apply recordDemand_inv in H; destruct H as (Hlt & -> & ->)
  | apply recordSupply_inv in H; destruct H as (Hlt & -> & ->)
  | apply calculateSurgePricing_inv in H;
    destruct H as (Hdle & Hsle & Hlib & -> & ->)
  | apply computePricing_inv in H;
    destruct H as (data & zone & rc & ad & m & Hd & Hs & Hsig & Hdec
                   & Hz0 & Hz1 & Hz2 & Hz3 & Hm & Hlt & -> & ->)
  | apply verifyPricing_inv in H; destruct H as (Hple & Hlib & -> & ->)
  | apply validatePricing_inv in H;
    destruct H as (data & zone & m & b & Hp & Hsig & Hdec & Hz0 & Hz1 & Hz2
                   & [(Hv & -> & ->) | (Hv & -> & ->)])
  | apply requestPricingProof_inv in H;
    destruct H as (Hple & Hver & Hlib & -> & ->)
  | apply decryptMultiplier_inv in H;
    destruct H as (Hp & Hsig & Hm & -> & ->) ].

Lemma exec_log_irrelevant cs : forall s t t',
  fst (exec cs (s, t)) = fst (exec cs (s, t')).
Proof.
  unfold exec. induction cs as [|c cs IH]; intros s t t'; [reflexivity|].
  cbn [fold_left]. unfold step at 2 4. cbn [fst snd]. apply IH.
Qed.

Lemma run_cons c cs s : run (c :: cs) s = run cs (fst (transact c s)).
Proof.
  unfold run. unfold exec at 1. cbn [fold_left]. unfold step at 2.
  cbn [fst snd]. apply exec_log_irrelevant.
Qed.

Lemma call_grows c s s' e :
  call c s = Ok (s', e) ->
  demandCount s <= demandCount s' <= demandCount s + 1 /\
  supplyCount s <= supplyCount s' <= supplyCount s + 1 /\
  pricingCount s <= pricingCount s' <= pricingCount s + 1.
Proof. intros H. invert_call H; simpl; lia. Qed.

Lemma transact_grows c s :
  demandCount s <= demandCount (fst (transact c s)) <= demandCount s + 1 /\
  supplyCount s <= supplyCount (fst (transact c s)) <= supplyCount s + 1 /\
  pricingCount s <= pricingCount (fst (transact c s)) <= pricingCount s + 1.
Proof.
  destruct (transact_cases c s) as [(s' & e & H & ->)|(err & _ & ->)]; simpl.
  - eapply call_grows, H.
  - lia.
Qed.

Lemma run_grows cs : forall s,
  demandCount s <= demandCount (run cs s)
    <= demandCount s + N.of_nat (length cs) /\
  supplyCount s <= supplyCount (run cs s)
    <= supplyCount s + N.of_nat (length cs) /\
  pricingCount s <= pricingCount (run cs s)
    <= pricingCount s + N.of_nat (length cs).
Proof.
  induction cs as [|c cs IH]; intros s.
  - unfold run. simpl. lia.
  - rewrite run_cons. specialize (IH (fst (transact c s))).
    pose proof (transact_grows c s). simpl length. lia.
Qed.

(** X10: no call lowers a counter, and a history of n calls raises each
    counter by at most n. *)
Theorem counters_never_decrease :
  forall cs s,
    demandCount s <= demandCount (run cs s)
      <= demandCount s + N.of_nat (length cs) /\
    supplyCount s <= supplyCount (run cs s)
      <= supplyCount s + N.of_nat (length cs) /\
    pricingCount s <= pricingCount (run cs s)
      <= pricingCount s + N.of_nat (length cs).
Proof. intros cs s. apply run_grows. Qed.

Lemma call_keeps_records c s s' e id :
  call c s = Ok (s', e) ->
  (id <= demandCount s -> rideDemands s' !! id = rideDemands s !! id) /\
  (id <= supplyCount s -> driverSupplies s' !! id = driverSupplies s !! id) /\
  (id <= pricingCount s ->
   pricingFields (pricingAt s' id) = pricingFields (pricingAt s id)).
Proof.
  intros H. invert_call H; simpl; repeat split; intros Hid;
    try reflexivity.
  - rewrite lookup_insert_ne by lia. reflexivity.
  - rewrite lookup_insert_ne by lia. reflexivity.
  - unfold pricingAt. simpl. rewrite lookup_insert_ne by lia. reflexivity.
  - unfold pricingAt. simpl.
    destruct (decide (pricingIdOf s requestId = id)) as [<-|Hne].
    + rewrite lookup_insert_eq. reflexivity.
    + rewrite lookup_insert_ne by exact Hne. reflexivity.
Qed.

(** X11: stored records are never rewritten: for an id within a counter,
    the demand record and the supply record at that id are the same after
    any further history, and the pricing slot at that id keeps its three
    encrypted fields (only [isVerified] can change). *)
Theorem records_immutable :
  forall cs s id,
    (id <= demandCount s ->
     rideDemands (run cs s) !! id = rideDemands s !! id) /\
    (id <= supplyCount s ->
     driverSupplies (run cs s) !! id = driverSupplies s !! id) /\
    (id <= pricingCount s ->
     pricingFields (pricingAt (run cs s) id) = pricingFields (pricingAt s id)).
Proof.
  induction cs as [|c cs IH]; intros s id.
  - unfold run. simpl. auto.
  - rewrite run_cons. specialize (IH (fst (transact c s)) id).
    pose proof (transact_grows c s) as Hg.
    destruct IH as (IHd & IHs & IHp).
    assert (Hstep :
      (id <= demandCount s ->
       rideDemands (fst (transact c s)) !! id = rideDemands s !! id) /\
      (id <= supplyCount s ->
       driverSupplies (fst (transact c s)) !! id
         = driverSupplies s !! id) /\
      (id <= pricingCount s ->
       pricingFields (pricingAt (fst (transact c s)) id)
         = pricingFields (pricingAt s id))).
    { destruct (transact_cases c s) as [(s' & e & H & ->)|(err & _ & ->)];
        simpl; [|auto].
      eapply call_keeps_records, H. }
    destruct Hstep as (Hd & Hs & Hp).
    repeat split; intros Hid.
    + rewrite IHd by lia. auto.
    + rewrite IHs by lia. auto.
    + rewrite IHp by lia. auto.
Qed.

Lemma handles_allocated_genesis : handles_allocated genesis.
Proof.
  intros r. unfold demandIdOf, supplyIdOf, pricingIdOf. simpl.
  rewrite !lookup_empty. simpl. lia.
Qed.

Lemma call_handles_allocated c s s' e :
  call c s = Ok (s', e) -> handles_allocated s -> handles_allocated s'.
Proof.
  intros H Hs0 r. specialize (Hs0 r) as Hr.
  unfold handles_allocated, demandIdOf, supplyIdOf, pricingIdOf in *.
  invert_call H; simpl; try lia; try assumption.
  - destruct (decide (reqId = r)) as [->|Hne].
    + rewrite !lookup_insert_eq. simpl. lia.
    + rewrite !lookup_insert_ne by exact Hne. lia.
  - destruct (decide (reqId = r)) as [->|Hne].
    + rewrite !lookup_insert_eq. simpl. lia.
    + rewrite !lookup_insert_ne by exact Hne. lia.
  - destruct (decide (reqId = r)) as [->|Hne].
    + rewrite !lookup_insert_eq. simpl. lia.
    + rewrite !lookup_insert_ne by exact Hne. lia.
Qed.

Lemma records_allocated_genesis : records_allocated genesis.
Proof.
  split; [|split]; intros id; simpl; rewrite lookup_empty;
    (split; [intros [x Hx]; discriminate | lia]).
Qed.

Lemma insert_next_allocated {V} (m : gmap N V) (n : N) (v : V) :
  (forall id, is_Some (m !! id) <-> 1 <= id <= n) ->
  forall id, is_Some (<[n + 1 := v]> m !! id) <-> 1 <= id <= n + 1.
Proof.
  intros Hm id. destruct (decide (n + 1 = id)) as [<-|Hne].
  - rewrite lookup_insert_eq. split; [lia | eauto].
  - rewrite lookup_insert_ne by exact Hne. rewrite Hm. lia.
Qed.

Lemma call_records_allocated c s s' e :
  call c s = Ok (s', e) -> handles_allocated s ->
  records_allocated s -> records_allocated s'.
Proof.
  intros H Hh (Rd & Rs & Rp).
  invert_call H; (split; [|split]); simpl; try assumption;
    try (apply insert_next_allocated; assumption).
  intros id. destruct (decide (pricingIdOf s requestId = id)) as [<-|Hne].
  - rewrite lookup_insert_eq. destruct (Hh requestId) as (_ & _ & Hle).
    split; [lia | eauto].
  - rewrite lookup_insert_ne by exact Hne. apply Rp.
Qed.

Lemma pricing_wellformed_genesis : pricing_wellformed genesis.
Proof. intros id rec. simpl. rewrite lookup_empty. discriminate. Qed.

Lemma call_pricing_wellformed c s s' e :
  call c s = Ok (s', e) -> handles_allocated s -> records_allocated s ->
  pricing_wellformed s -> pricing_wellformed s'.
Proof.
  intros H Hh (_ & _ & Rp) Hw. unfold pricing_wellformed.
  invert_call H; simpl; try exact Hw.
  - intros id rec. destruct (decide (pricingCount s + 1 = id)) as [<-|Hne].
    + rewrite lookup_insert_eq. intros [= <-]. simpl. split; [reflexivity|].
      exists m. split; [|reflexivity].
      apply surgeMultiplier_spec in Hm. subst m. apply spec_multiplier_bucket.
    + rewrite lookup_insert_ne by exact Hne. apply Hw.
  - intros id rec.
    destruct (decide (pricingIdOf s requestId = id)) as [<-|Hne].
    + rewrite lookup_insert_eq. intros [= <-].
      destruct (Hh requestId) as (_ & _ & Hle).
      destruct (proj2 (Rp (pricingIdOf s requestId))) as [old Hold]; [lia|].
      unfold pricingAt. rewrite Hold. simpl. apply (Hw _ _ Hold).
    + rewrite lookup_insert_ne by exact Hne. apply Hw.
Qed.

Lemma run_shape cs :
  handles_allocated (run cs genesis) /\
  records_allocated (run cs genesis) /\
  pricing_wellformed (run cs genesis).
Proof.
  unfold run.
  apply (exec_invariant
           (fun acc => handles_allocated (fst acc) /\
                       records_allocated (fst acc) /\
                       pricing_wellformed (fst acc))).
  - intros [s t] c (Hh & Hr & Hw). simpl in *.
    destruct (transact_cases c s) as [(s' & e & H & ->)|(err & _ & ->)];
      simpl; [|auto].
    split; [eapply call_handles_allocated; eassumption|].
    split; [eapply call_records_allocated; eassumption|].
    eapply call_pricing_wellformed; eassumption.
  - split; [apply handles_allocated_genesis|].
    split; [apply records_allocated_genesis|apply pricing_wellformed_genesis].
Qed.

(** X12: in every state reached from deployment the three record maps hold
    a record exactly at the ids 1..count of their kind: nothing at id zero,
    nothing above the counter, no gap below it. *)
Theorem records_exactly_allocated :
  forall cs, records_allocated (run cs genesis).
Proof. intros cs. apply run_shape. Qed.

(** X13: in every state reached from deployment a request id resolves to
    zero or to an id within the counter of its kind, so a callback never
    works on an id that was not allocated. *)
Theorem handles_reference_allocated :
  forall cs, handles_allocated (run cs genesis).
Proof. intros cs. apply run_shape. Qed.

(** X14: in every state reached from deployment each stored pricing record
    holds the encryption of one of 100, 150, 200, 250, 300 as multiplier
    and the encryption of 1000 as base price. *)
Theorem pricing_records_wellformed :
  forall cs, pricing_wellformed (run cs genesis).
Proof. intros cs. apply run_shape. Qed.

(** X15: in every state reached from deployment [getPricingStatus] is
    false at id zero and at every id above [pricingCount]. *)
Theorem unallocated_never_verified :
  forall cs id,
    id = 0 \/ pricingCount (run cs genesis) < id ->
    getPricingStatus (run cs genesis) id = false.
Proof.
  intros cs id Hid. destruct (run_shape cs) as (_ & (_ & _ & Rp) & _).
  unfold getPricingStatus, pricingAt.
  destruct (surgePricings (run cs genesis) !! id) as [rec|] eqn:E;
    [|reflexivity].
  assert (His : is_Some (surgePricings (run cs genesis) !! id)) by eauto.
  apply Rp in His. lia.
Qed.

(** X9: requests that name id zero are refused: in every state reached
    from deployment the slots at id zero are unwritten, so their handles
    are the zero word, and on a library that refuses any request holding
    the zero handle a pairing request with a zero demand or supply id and
    a verification request on pricing id zero revert, leaving storage as
    it was. *)
Theorem zero_id_requests_refused :
  forall cs demandId supplyId reqId,
    (forall ciphertexts callback r,
        In 0 ciphertexts -> requestDecryption ciphertexts callback r = false) ->
    (demandId = 0 \/ supplyId = 0 ->
     (exists e,
         calculateSurgePricing demandId supplyId reqId (run cs genesis)
           = Revert e) /\
     transact (CalculateSurgePricing demandId supplyId reqId)
       (run cs genesis) = (run cs genesis, [])) /\
    verifyPricing 0 reqId (run cs genesis) = Revert RequestRefused /\
    transact (VerifyPricing 0 reqId) (run cs genesis) = (run cs genesis, []).
Proof.
  intros cs d sup r Hacl.
  destruct (run_shape cs) as (_ & (Rd & Rs & Rp) & _).
  set (s := run cs genesis) in *.
  assert (Hd0 : rideDemands s !! 0 = None).
  { destruct (rideDemands s !! 0) eqn:E; [|reflexivity].
    assert (His : is_Some (rideDemands s !! 0)) by (rewrite E; eauto).
    apply Rd in His. lia. }
  assert (Hs0 : driverSupplies s !! 0 = None).
  { destruct (driverSupplies s !! 0) eqn:E; [|reflexivity].
    assert (His : is_Some (driverSupplies s !! 0)) by (rewrite E; eauto).
    apply Rs in His. lia. }
  assert (Hp0 : surgePricings s !! 0 = None).
  { destruct (surgePricings s !! 0) eqn:E; [|reflexivity].
    assert (His : is_Some (surgePricings s !! 0)) by (rewrite E; eauto).
    apply Rp in His. lia. }
  assert (Hpair : (d = 0 \/ sup = 0) ->
                  exists e, calculateSurgePricing d sup r s = Revert e).
  { intros Hz. unfold calculateSurgePricing.
    destruct ((d <=? demandCount s) && (sup <=? supplyCount s));
      [|eexists; reflexivity].
    cbn [require bind]. cbv zeta. rewrite Hacl; [eexists; reflexivity|].
    unfold pairingCiphertexts, demandAt, supplyAt.
    destruct Hz as [-> | ->].
    - rewrite Hd0. simpl. auto.
    - rewrite Hs0. simpl. auto. }
  assert (Hver : verifyPricing 0 r s = Revert RequestRefused).
  { unfold verifyPricing. rewrite (proj2 (N.leb_le _ _) (N.le_0_l _)).
    cbn [require bind]. cbv zeta. rewrite Hacl; [reflexivity|].
    unfold verificationCiphertexts, pricingAt. rewrite Hp0. simpl. auto. }
  split; [|split].
  - intros Hz. destruct (Hpair Hz) as (e & He). split; [eauto|].
    unfold transact, call. now rewrite He.
  - exact Hver.
  - unfold transact, call. now rewrite Hver.
Qed.

(** X16: the only call that turns [isVerified] on is a verification
    callback whose handle resolves to that id, whose signature check passes
    and whose payload carries a multiplier in 100..300 and a positive base
    price. *)
Theorem verified_only_by_validation :
  forall c s id,
    getPricingStatus s id = false ->
    getPricingStatus (fst (transact c s)) id = true ->
    exists requestId cleartexts proof data multiplier basePrice,
      c = ValidatePricing requestId cleartexts proof /\
      pricingIdOf s requestId = id /\
      checkSignatures requestId cleartexts proof = true /\
      decode_uint32_array cleartexts = Some data /\
      data !! 1%nat = Some multiplier /\ data !! 2%nat = Some basePrice /\
      100 <= multiplier <= 300 /\ 0 < basePrice.
Proof.
  intros c s id Hoff Hon.
  destruct (transact_cases c s) as [(s' & e & H & Ht)|(err & _ & Ht)];
    rewrite Ht in Hon; simpl in Hon; [|congruence].
  clear Ht. unfold getPricingStatus, pricingAt in *.
  invert_call H; simpl in Hon; try congruence.
  - destruct (decide (pricingCount s + 1 = id)) as [<-|Hne].
    + rewrite lookup_insert_eq in Hon. discriminate.
    + rewrite lookup_insert_ne in Hon by exact Hne. congruence.
  - destruct (decide (pricingIdOf s requestId = id)) as [Heq|Hne].
    + apply isValid_band in Hv. destruct Hv as [Hband Hpos].
      exists requestId, cleartexts, proof, data, m, b. auto 10.
    + rewrite lookup_insert_ne in Hon by exact Hne. congruence.
Qed.

Lemma call_keeps_unrequested c s s' e r :
  call c s = Ok (s', e) -> is_pairing_request r c = false ->
  demandIdOf s' r = demandIdOf s r.
Proof.
  intros H Hc. unfold demandIdOf.
  invert_call H; simpl in *; try reflexivity.
  apply N.eqb_neq in Hc. rewrite lookup_insert_ne by exact Hc. reflexivity.
Qed.

(** X17: a pairing callback on a request id that no
    [calculateSurgePricing] call of the history was given is rejected with
    [InvalidRequest]: handles cannot be made up. *)
Theorem unrequested_handle_rejected :
  forall cs requestId cleartexts proof,
    forallb (fun c => negb (is_pairing_request requestId c)) cs = true ->
    computePricing requestId cleartexts proof (run cs genesis)
      = Revert InvalidRequest.
Proof.
  intros cs r ct p Hcs.
  assert (Hzero : forall s, demandIdOf s r = 0 ->
                            demandIdOf (run cs s) r = 0).
  { induction cs as [|c cs IH]; intros s Hs; [exact Hs|].
    simpl in Hcs. apply andb_true_iff in Hcs. destruct Hcs as [Hc Hcs].
    apply negb_true_iff in Hc. rewrite run_cons. apply IH; [exact Hcs|].
    destruct (transact_cases c s) as [(s' & e & H & ->)|(err & _ & ->)];
      simpl; [|exact Hs].
    rewrite (call_keeps_unrequested _ _ _ _ _ H Hc). exact Hs. }
  unfold computePricing. rewrite Hzero; [reflexivity|].
  unfold demandIdOf. simpl. now rewrite lookup_empty.
Qed.

End Histories.

(** ** The surge buckets as a function of demand and supply *)

Lemma bucket_above (k a b : N) :
  b <> 0 -> ((k <? a / b) = true <-> (k + 1) * b <= a).
Proof.
  intros Hb. rewrite N.ltb_lt. split; intros H.
  - pose proof (N.Div0.mul_div_le a b) as Hle.
    assert (Hk : k + 1 <= a / b) by lia.
    apply (N.mul_le_mono_r _ _ b) in Hk.
    rewrite (N.mul_comm (a / b)) in Hk. lia.
  - apply N.le_succ_l. rewrite <- N.add_1_r.
    apply N.div_le_lower_bound; [exact Hb | lia].
Qed.

Lemma spec_multiplier_demand (requestCount requestCount' availableDrivers : N) :
  requestCount <= requestCount' ->
  spec_multiplier requestCount availableDrivers
    <= spec_multiplier requestCount' availableDrivers.
Proof.
  intros Hle. unfold spec_multiplier.
  destruct (availableDrivers =? 0) eqn:Ead; [lia|]. apply N.eqb_neq in Ead.
  assert (Hdiv : requestCount * 100 / availableDrivers
                 <= requestCount' * 100 / availableDrivers)
    by (apply N.Div0.div_le_mono; lia).
  repeat match goal with
         | |- context [?k <? ?q] =>
             let E := fresh "E" in
             destruct (k <? q) eqn:E;
             [apply N.ltb_lt in E | apply N.ltb_ge in E]
         end; lia.
Qed.

Lemma spec_multiplier_supply (requestCount availableDrivers availableDrivers' : N) :
  availableDrivers <= availableDrivers' ->
  spec_multiplier requestCount availableDrivers'
    <= spec_multiplier requestCount availableDrivers.
Proof.
  intros Hle. pose proof (spec_multiplier_bucket requestCount availableDrivers')
    as Hin. unfold spec_multiplier in *.
  destruct (availableDrivers =? 0) eqn:Ead.
  { simpl in Hin. lia. }
  apply N.eqb_neq in Ead.
  assert (Ead' : (availableDrivers' =? 0) = false) by (apply N.eqb_neq; lia).
  rewrite Ead'. clear Hin.
  assert (Hdiv : requestCount * 100 / availableDrivers'
                 <= requestCount * 100 / availableDrivers)
    by (apply N.div_le_compat_l; lia).
  repeat match goal with
         | |- context [?k <? ?q] =>
             let E := fresh "E" in
             destruct (k <? q) eqn:E;
             [apply N.ltb_lt in E | apply N.ltb_ge in E]
         end; lia.
Qed.

(** X18: the multiplier the pricing branch returns never falls when the
    request count rises, and never rises when the number of available
    drivers rises (zero drivers giving the top value). *)
Theorem surgeMultiplier_monotone :
  forall requestCount requestCount' availableDrivers availableDrivers' m m',
    requestCount <= requestCount' -> availableDrivers' <= availableDrivers ->
    surgeMultiplier requestCount availableDrivers = Ok m ->
    surgeMultiplier requestCount' availableDrivers' = Ok m' ->
    m <= m'.
Proof.
  intros rc rc' ad ad' m m' Hrc Had Hm Hm'.
  apply surgeMultiplier_spec in Hm, Hm'. subst m m'.
  etransitivity; [apply spec_multiplier_demand, Hrc|].
  apply spec_multiplier_supply, Had.
Qed.

(** X19: with drivers available, the bucket is decided by comparing
    [requestCount * 100] with multiples of [availableDrivers]: 100 below
    101 drivers' worth, 150 from there below 151, 200 from there below 201,
    250 from 201 on; a demand of exactly 1, 1.5 or 2 times the supply
    stays in the lower bucket, and 300 is never given. *)
Theorem surgeMultiplier_thresholds :
  forall requestCount availableDrivers m,
    availableDrivers <> 0 ->
    surgeMultiplier requestCount availableDrivers = Ok m ->
    (m = 100 <-> requestCount * 100 < 101 * availableDrivers) /\
    (m = 150 <-> 101 * availableDrivers <= requestCount * 100
                   < 151 * availableDrivers) /\
    (m = 200 <-> 151 * availableDrivers <= requestCount * 100
                   < 201 * availableDrivers) /\
    (m = 250 <-> 201 * availableDrivers <= requestCount * 100) /\
    m <> 300.
Proof.
  intros rc ad m Had Hm. apply surgeMultiplier_spec in Hm. subst m.
  unfold spec_multiplier. rewrite (proj2 (N.eqb_neq _ _) Had).
  pose proof (bucket_above 200 (rc * 100) ad Had) as B200.
  pose proof (bucket_above 150 (rc * 100) ad Had) as B150.
  pose proof (bucket_above 100 (rc * 100) ad Had) as B100.
  cbv zeta.
  destruct (200 <? rc * 100 / ad); destruct (150 <? rc * 100 / ad);
    destruct (100 <? rc * 100 / ad);
    repeat split; try discriminate; try lia; intros;
    try (assert (Hno : ~ (200 + 1) * ad <= rc * 100)
           by (intros Hc; apply B200 in Hc; discriminate));
    try (assert (Hno' : ~ (150 + 1) * ad <= rc * 100)
           by (intros Hc; apply B150 in Hc; discriminate));
    try (assert (Hno'' : ~ (100 + 1) * ad <= rc * 100)
           by (intros Hc; apply B100 in Hc; discriminate));
    try (assert (Hy : (200 + 1) * ad <= rc * 100) by (now apply B200));
    try (assert (Hy' : (150 + 1) * ad <= rc * 100) by (now apply B150));
    try (assert (Hy'' : (100 + 1) * ad <= rc * 100) by (now apply B100));
    lia.
Qed.

Lemma to_uint32_wrap (timestamp : N) :
  to_uint32 (timestamp + 2 ^ 32) = to_uint32 timestamp.
Proof.
  unfold to_uint32.
  replace (timestamp + 2 ^ 32) with (timestamp + 1 * 2 ^ 32) by lia.
  apply N.Div0.mod_add.
Qed.

Section Timestamps.

Context {env : Environment}.

(** X20: a submission stores the block timestamp cut to 32 bits: with a
    timestamp below 2^32 the record written by [recordDemand], and likewise
    the one written by [recordSupply], carries the encryption of the
    timestamp itself, and two timestamps 2^32 apart give the same
    record. *)
Theorem timestamp_truncated :
  forall s zoneId amount timestamp,
    recordDemand zoneId amount (timestamp + 2 ^ 32) s
      = recordDemand zoneId amount timestamp s /\
    recordSupply zoneId amount (timestamp + 2 ^ 32) s
      = recordSupply zoneId amount timestamp s /\
    (timestamp < 2 ^ 32 -> demandCount s < max_uint256 ->
     exists s' e,
       recordDemand zoneId amount timestamp s = Ok (s', e) /\
       demand_encryptedTimestamp (demandAt s' (demandCount s'))
         = asEuint32 timestamp) /\
    (timestamp < 2 ^ 32 -> supplyCount s < max_uint256 ->
     exists s' e,
       recordSupply zoneId amount timestamp s = Ok (s', e) /\
       supply_encryptedTimestamp (supplyAt s' (supplyCount s'))
         = asEuint32 timestamp).
Proof.
  intros s z a t. unfold recordDemand, recordSupply.
  rewrite to_uint32_wrap. split; [reflexivity|]. split; [reflexivity|].
  split; intros Ht Hlt; rewrite (incr256_lt _ Hlt); cbn [bind];
    eexists _, _; (split; [reflexivity|]).
  - unfold demandAt. simpl. rewrite lookup_insert_eq. simpl.
    unfold to_uint32. now rewrite N.mod_small.
  - unfold supplyAt. simpl. rewrite lookup_insert_eq. simpl.
    unfold to_uint32. now rewrite N.mod_small.
Qed.

End Timestamps.

(** ** From submission to the oracle request *)

Section Submission.

Context {env : Environment}.


End Submission.


(** ** The further properties on the walkthrough states *)

Lemma computePricing_succeeds_iff_witness :
  exists s' e,
    @computePricing Scenario.env 41 Scenario.pairing_cleartexts
      Scenario.validProof Scenario.paired = Ok (s', e).
Proof.
  apply (proj2 (@computePricing_succeeds_iff Scenario.env Scenario.paired 41
                  Scenario.pairing_cleartexts Scenario.validProof)).
  split; [vm_compute; discriminate|]. split; [vm_compute; discriminate|].
  split; [reflexivity|]. split; [|vm_compute; reflexivity].
  exists [7; 180; 7; 100], 7, 180, 100.
  split; [vm_compute; reflexivity|]. repeat (split; [reflexivity|]).
  right. vm_compute. discriminate.
Defined.

Lemma malformed_payload_reverts_witness :
  Scenario.signaturesOk 41 Walkthrough.short_cleartexts Scenario.validProof
    = true /\
  Scenario.decode_array Walkthrough.short_cleartexts = Some [7; 180; 7] /\
  @computePricing Scenario.env 41 Walkthrough.short_cleartexts
    Scenario.validProof Scenario.paired = Revert (Panic 50).
Proof.
  assert (Hsig : Scenario.signaturesOk 41 Walkthrough.short_cleartexts
                   Scenario.validProof = true) by reflexivity.
  assert (Hdec : Scenario.decode_array Walkthrough.short_cleartexts
                 = Some [7; 180; 7]) by (vm_compute; reflexivity).
  assert (Hd : demandIdOf Scenario.paired 41 <> 0)
    by (vm_compute; discriminate).
  assert (Hs : supplyIdOf Scenario.paired 41 <> 0)
    by (vm_compute; discriminate).
  split; [exact Hsig|]. split; [exact Hdec|].
  refine (proj2 (proj1 (@malformed_payload_reverts Scenario.env
                          Scenario.paired 41 Walkthrough.short_cleartexts
                          Scenario.validProof Hsig) Hd Hs)
            [7; 180; 7] Hdec _).
  simpl. lia.
Defined.

Lemma validatePricing_outcome_witness :
  pricingIdOf Walkthrough.verifying 42 = 1 /\
  (exists s',
      @validatePricing Scenario.env 42 Walkthrough.admissible_cleartexts
        Scenario.validProof Walkthrough.verifying
        = Ok (s', [DecryptionFulfilled 42; PricingVerified 1]) /\
      getPricingStatus s' 1 = true) /\
  @validatePricing Scenario.env 42 Walkthrough.inadmissible_cleartexts
    Scenario.validProof Walkthrough.verifying
    = Ok (Walkthrough.verifying, [DecryptionFulfilled 42]).
Proof.
  assert (Hp : pricingIdOf Walkthrough.verifying 42 <> 0)
    by (vm_compute; discriminate).
  split; [vm_compute; reflexivity|]. split.
  - destruct (proj1 (@validatePricing_outcome Scenario.env
                       Walkthrough.verifying 42
                       Walkthrough.admissible_cleartexts Scenario.validProof
                       [7; 200; 1000] 7 200 1000 Hp eq_refl eq_refl eq_refl
                       eq_refl eq_refl))
      as (s' & Hcall & Hver & _).
    + split; [split|]; vm_compute; solve [discriminate | reflexivity].
    + exists s'. split; [exact Hcall | exact Hver].
  - apply (proj2 (@validatePricing_outcome Scenario.env
                    Walkthrough.verifying 42
                    Walkthrough.inadmissible_cleartexts Scenario.validProof
                    [7; 301; 1000] 7 301 1000 Hp eq_refl eq_refl eq_refl
                    eq_refl eq_refl)).
    intros [[_ Hle] _]. vm_compute in Hle. apply Hle. reflexivity.
Defined.

Lemma calculateSurgePricing_registers_witness :
  1 <= 1 <= demandCount Walkthrough.submitted /\
  1 <= 1 <= supplyCount Walkthrough.submitted /\
  Scenario.decryptionAllowed
    (pairingCiphertexts Walkthrough.submitted 1 1) sel_computePricing 41
    = true /\
  exists s',
    @calculateSurgePricing Scenario.env 1 1 41 Walkthrough.submitted
      = Ok (s', [DecryptionRequested 41 [11; 12; 21; 22]
                   sel_computePricing]) /\
    demandIdOf s' 41 = 1 /\ supplyIdOf s' 41 = 1.
Proof.
  assert (Hd : 1 <= 1 <= demandCount Walkthrough.submitted)
    by (split; vm_compute; discriminate).
  assert (Hs : 1 <= 1 <= supplyCount Walkthrough.submitted)
    by (split; vm_compute; discriminate).
  assert (Hlib : Scenario.decryptionAllowed
                   (pairingCiphertexts Walkthrough.submitted 1 1)
                   sel_computePricing 41 = true)
    by (vm_compute; reflexivity).
  split; [exact Hd|]. split; [exact Hs|]. split; [exact Hlib|].
  destruct (proj1 (@calculateSurgePricing_registers Scenario.env
                     Walkthrough.submitted 1 1 41 Hd Hs) Hlib)
    as (s' & Hcall & Hdem & Hsup & _).
  exists s'. split; [exact Hcall|]. split; [exact Hdem | exact Hsup].
Defined.

Lemma pairing_completes_witness :
  exists s1 e1 s2,
    @calculateSurgePricing Scenario.env 1 1 41 Walkthrough.submitted
      = Ok (s1, e1) /\
    @computePricing Scenario.env 41 Scenario.pairing_cleartexts
      Scenario.validProof s1
      = Ok (s2, [DecryptionFulfilled 41; PricingCalculated 1]) /\
    surgePricings s2 !! 1
      = Some (mkSurgePricing (Scenario.trivialEncrypt 7)
                (Scenario.trivialEncrypt 200) (Scenario.trivialEncrypt 1000)
                false).
Proof.
  assert (Hd : 1 <= 1 <= demandCount Walkthrough.submitted)
    by (split; vm_compute; discriminate).
  assert (Hs : 1 <= 1 <= supplyCount Walkthrough.submitted)
    by (split; vm_compute; discriminate).
  assert (Hlib : Scenario.decryptionAllowed
                   (pairingCiphertexts Walkthrough.submitted 1 1)
                   sel_computePricing 41 = true)
    by (vm_compute; reflexivity).
  assert (Hdec : Scenario.decode_array Scenario.pairing_cleartexts
                 = Some [7; 180; 7; 100]) by (vm_compute; reflexivity).
  assert (Hfit : (100 : N) = 0 \/ 180 * 100 <= max_uint32)
    by (right; vm_compute; discriminate).
  assert (Hlt : pricingCount Walkthrough.submitted < max_uint256)
    by (vm_compute; reflexivity).
  destruct (@pairing_completes Scenario.env Walkthrough.submitted 1 1 41
              Scenario.pairing_cleartexts Scenario.validProof
              [7; 180; 7; 100] 7 180 100 Hd Hs Hlib eq_refl Hdec eq_refl
              eq_refl eq_refl eq_refl Hfit Hlt)
    as (s1 & e1 & s2 & H1 & H2 & _ & Hrec).
  exists s1, e1, s2. split; [exact H1|]. split; [exact H2 | exact Hrec].
Defined.

Lemma verification_completes_witness :
  Scenario.decryptionAllowed (verificationCiphertexts Scenario.priced 1)
    sel_validatePricing 42 = true /\
  exists s1 e1 s2 s3,
    @verifyPricing Scenario.env 1 42 Scenario.priced = Ok (s1, e1) /\
    @validatePricing Scenario.env 42 Walkthrough.admissible_cleartexts
      Scenario.validProof s1
      = Ok (s2, [DecryptionFulfilled 42; PricingVerified 1]) /\
    getPricingStatus s2 1 = true /\
    @requestPricingProof Scenario.env 1 44 s2
      = Ok (s3, [DecryptionRequested 44 [Scenario.trivialEncrypt 200]
                   sel_decryptMultiplier]).
Proof.
  assert (Hid : 1 <= 1 <= pricingCount Scenario.priced)
    by (split; vm_compute; discriminate).
  assert (Hlib : Scenario.decryptionAllowed
                   (verificationCiphertexts Scenario.priced 1)
                   sel_validatePricing 42 = true)
    by (vm_compute; reflexivity).
  assert (Hlib' : Scenario.decryptionAllowed
                    (disclosureCiphertexts Scenario.priced 1)
                    sel_decryptMultiplier 44 = true)
    by (vm_compute; reflexivity).
  assert (Hdec : Scenario.decode_array Walkthrough.admissible_cleartexts
                 = Some [7; 200; 1000]) by (vm_compute; reflexivity).
  assert (Hband : 100 <= 200 <= 300) by (split; vm_compute; discriminate).
  assert (Hpos : 0 < 1000) by reflexivity.
  split; [exact Hlib|].
  destruct (@verification_completes Scenario.env Scenario.priced 1 42 44
              Walkthrough.admissible_cleartexts Scenario.validProof
              [7; 200; 1000] 7 200 1000 Hid Hlib Hlib' eq_refl Hdec eq_refl
              eq_refl eq_refl Hband Hpos)
    as (s1 & e1 & s2 & s3 & H1 & H2 & H3 & H4 & _).
  exists s1, e1, s2, s3. split; [exact H1|]. split; [exact H2|].
  split; [exact H3 | exact H4].
Defined.

Lemma pricing_handles_interchangeable_witness :
  @requestPricingProof Scenario.env 1 44 Walkthrough.verified
    = Ok (Walkthrough.disclosing,
          [DecryptionRequested 44 [Scenario.trivialEncrypt 200]
             sel_decryptMultiplier]) /\
  exists s'' e',
    @validatePricing Scenario.env 44 Walkthrough.admissible_cleartexts
      Scenario.validProof Walkthrough.disclosing = Ok (s'', e').
Proof.
  assert (H : @requestPricingProof Scenario.env 1 44 Walkthrough.verified
              = Ok (Walkthrough.disclosing,
                    [DecryptionRequested 44 [Scenario.trivialEncrypt 200]
                       sel_decryptMultiplier]))
    by (vm_compute; reflexivity).
  split; [exact H|].
  assert (Hne : (1 : N) <> 0) by discriminate.
  exact (proj1 (@pricing_handles_interchangeable Scenario.env
                  Walkthrough.verified 1 44 Walkthrough.admissible_cleartexts
                  Scenario.validProof _ _ Hne eq_refl)
           H [7; 200; 1000] 7 200 1000 eq_refl eq_refl eq_refl eq_refl).
Defined.

Lemma decryptionAllowed_refuses_zero ciphertexts callback r :
  In 0 ciphertexts -> Scenario.decryptionAllowed ciphertexts callback r = false.
Proof.
  unfold Scenario.decryptionAllowed.
  induction ciphertexts as [|h rest IH]; intros Hin; [destruct Hin|].
  simpl. destruct Hin as [-> | Hin]; [reflexivity|].
  rewrite (IH Hin). apply andb_false_r.
Qed.

Lemma zero_id_requests_refused_witness :
  @calculateSurgePricing Scenario.env 0 1 50 Scenario.paired
    = Revert RequestRefused /\
  Scenario.transact (CalculateSurgePricing 0 1 50) Walkthrough.submitted
    = (Walkthrough.submitted, []) /\
  @verifyPricing Scenario.env 0 42 Walkthrough.submitted
    = Revert RequestRefused.
Proof.
  split; [vm_compute; reflexivity|].
  destruct (@zero_id_requests_refused Scenario.env
              [ RecordDemand 11 12 1700000000;
                RecordSupply 21 22 1700000001 ] 0 1 50
              decryptionAllowed_refuses_zero) as (Hpair & _).
  destruct (@zero_id_requests_refused Scenario.env
              [ RecordDemand 11 12 1700000000;
                RecordSupply 21 22 1700000001 ] 0 1 42
              decryptionAllowed_refuses_zero) as (_ & Hver & _).
  split; [exact (proj2 (Hpair (or_introl eq_refl))) | exact Hver].
Defined.

Lemma records_immutable_witness :
  1 <= demandCount Scenario.paired /\
  rideDemands (Scenario.run Scenario.later_calls Scenario.paired) !! 1
    = rideDemands Scenario.paired !! 1.
Proof.
  assert (H : 1 <= demandCount Scenario.paired)
    by (vm_compute; discriminate).
  split; [exact H|].
  exact (proj1 (@records_immutable Scenario.env Scenario.later_calls
                  Scenario.paired 1) H).
Defined.

Lemma unallocated_never_verified_witness :
  pricingCount (Scenario.run Scenario.verified_history genesis) < 2 /\
  @getPricingStatus (Scenario.run Scenario.verified_history genesis) 2
    = false.
Proof.
  assert (H : pricingCount (Scenario.run Scenario.verified_history genesis)
              < 2) by (vm_compute; reflexivity).
  split; [exact H|].
  exact (@unallocated_never_verified Scenario.env Scenario.verified_history
           2 (or_intror H)).
Defined.

Lemma verified_only_by_validation_witness :
  getPricingStatus Walkthrough.verifying 1 = false /\
  getPricingStatus
    (fst (Scenario.transact
            (ValidatePricing 42 Walkthrough.admissible_cleartexts
               Scenario.validProof) Walkthrough.verifying)) 1 = true /\
  exists requestId cleartexts proof,
    ValidatePricing 42 Walkthrough.admissible_cleartexts Scenario.validProof
      = ValidatePricing requestId cleartexts proof /\
    pricingIdOf Walkthrough.verifying requestId = 1.
Proof.
  assert (Hoff : getPricingStatus Walkthrough.verifying 1 = false)
    by (vm_compute; reflexivity).
  assert (Hon : getPricingStatus
                  (fst (Scenario.transact
                          (ValidatePricing 42
                             Walkthrough.admissible_cleartexts
                             Scenario.validProof) Walkthrough.verifying)) 1
                = true) by (vm_compute; reflexivity).
  split; [exact Hoff|]. split; [exact Hon|].
  destruct (@verified_only_by_validation Scenario.env _ _ _ Hoff Hon)
    as (r & ct & p & _ & _ & _ & Hc & Hr & _).
  exists r, ct, p. split; [exact Hc | exact Hr].
Defined.

Lemma unrequested_handle_rejected_witness :
  forallb (fun c => negb (is_pairing_request 99 c)) Scenario.verified_history
    = true /\
  @computePricing Scenario.env 99 Scenario.pairing_cleartexts
    Scenario.validProof (Scenario.run Scenario.verified_history genesis)
    = Revert InvalidRequest.
Proof.
  assert (H : forallb (fun c => negb (is_pairing_request 99 c))
                Scenario.verified_history = true) by reflexivity.
  split; [exact H|].
  exact (@unrequested_handle_rejected Scenario.env Scenario.verified_history
           99 Scenario.pairing_cleartexts Scenario.validProof H).
Defined.

Lemma surgeMultiplier_monotone_witness :
  surgeMultiplier 120 100 = Ok 150 /\ surgeMultiplier 160 80 = Ok 200 /\
  150 <= 200.
Proof.
  assert (H1 : surgeMultiplier 120 100 = Ok 150) by reflexivity.
  assert (H2 : surgeMultiplier 160 80 = Ok 200) by reflexivity.
  split; [exact H1|]. split; [exact H2|].
  refine (surgeMultiplier_monotone 120 160 100 80 150 200 _ _ H1 H2);
    vm_compute; discriminate.
Defined.

Lemma surgeMultiplier_thresholds_witness :
  surgeMultiplier 200 100 = Ok 200 /\
  151 * 100 <= 200 * 100 < 201 * 100.
Proof.
  assert (H : surgeMultiplier 200 100 = Ok 200) by reflexivity.
  assert (Hne : (100 : N) <> 0) by discriminate.
  split; [exact H|].
  exact (proj1 (proj1 (proj2 (proj2 (surgeMultiplier_thresholds 200 100 200
                                       Hne H)))) eq_refl).
Defined.

Lemma timestamp_truncated_witness :
  1700000000 < 2 ^ 32 /\
  (exists s' e,
      @recordDemand Scenario.env 11 12 1700000000 genesis = Ok (s', e) /\
      demand_encryptedTimestamp (demandAt s' (demandCount s'))
        = Scenario.trivialEncrypt 1700000000) /\
  (exists s' e,
      @recordSupply Scenario.env 21 22 1700000000 genesis = Ok (s', e) /\
      supply_encryptedTimestamp (supplyAt s' (supplyCount s'))
        = Scenario.trivialEncrypt 1700000000).
Proof.
  assert (Ht : 1700000000 < 2 ^ 32) by (vm_compute; reflexivity).
  assert (Hlt : demandCount genesis < max_uint256)
    by (vm_compute; reflexivity).
  split; [exact Ht|]. split.
  - exact (proj1 (proj2 (proj2 (@timestamp_truncated Scenario.env genesis
                                  11 12 1700000000))) Ht Hlt).
  - exact (proj2 (proj2 (proj2 (@timestamp_truncated Scenario.env genesis
                                  21 22 1700000000))) Ht Hlt).
Defined.

